(** * wanderlog: scripts/import_test_images.py

    A shallow embedding of the script that downloads the landmark pictures of
    the static catalog [IMAGES] and imports them into the booted iOS
    simulator, with the properties of its control flow and failure handling.

    Python strings are modelled as [string] (bytes of the UTF-8 text): every
    character the script inspects ('Booted', the newline, the characters of
    the regular expression) is ASCII, and no byte of a multi-byte UTF-8
    sequence is an ASCII byte, so scanning bytes and scanning code points
    agree on them. *)

From Stdlib Require Import String Ascii List ZArith Lia Bool Arith.
From Stdlib Require Import DecimalString DecimalNat.
Import ListNotations.
Open Scope list_scope.
Open Scope string_scope.

(** ** Strings *)

Module Str.

(** [s.split(sep)] for a one-character separator: every separator ends a
    piece, so the result has one piece more than [s] has separators. *)
Fixpoint split (sep : ascii) (s : string) : list string :=
  match s with
  | EmptyString => [EmptyString]
  | String c s' =>
      if Ascii.eqb c sep then EmptyString :: split sep s'
      else match split sep s' with
           | [] => [String c EmptyString]
           | piece :: pieces => String c piece :: pieces
           end
  end.

(** [needle in hay]: [needle] occurs in [hay] as a substring. *)
Fixpoint contains (needle hay : string) : bool :=
  String.prefix needle hay ||
  match hay with
  | EmptyString => false
  | String _ hay' => contains needle hay'
  end.

(** [str(n)] for a non-negative integer. *)
Definition of_nat (n : nat) : string := NilZero.string_of_uint (Nat.to_uint n).

Definition is_lower (c : ascii) : bool := (("a" <=? c) && (c <=? "z"))%char.
Definition is_upper (c : ascii) : bool := (("A" <=? c) && (c <=? "Z"))%char.
Definition upper (c : ascii) : ascii :=
  if is_lower c then ascii_of_nat (nat_of_ascii c - 32) else c.
Definition lower (c : ascii) : ascii :=
  if is_upper c then ascii_of_nat (nat_of_ascii c + 32) else c.

(** [s.title()] on ASCII text: a letter that follows a letter is lowered,
    any other letter is raised. *)
Fixpoint title_from (after_letter : bool) (s : string) : string :=
  match s with
  | EmptyString => EmptyString
  | String c s' =>
      let cased := is_lower c || is_upper c in
      String (if after_letter then lower c else upper c) (title_from cased s')
  end.

Definition title (s : string) : string := title_from false s.

(** All characters of [s] satisfy [p]. *)
Fixpoint all (p : ascii -> bool) (s : string) : bool :=
  match s with
  | EmptyString => true
  | String c s' => p c && all p s'
  end.

End Str.

(** ** The regular expression of [get_simulator_id]

    The fragment of Python's [re] that the pattern [\(([A-F0-9-]+)\)] uses,
    with the backtracking order of the library: a repeat is greedy (the
    longest run is tried first, shorter ones on failure of what follows) and
    [re.search] returns the match at the leftmost position that has one. *)

Module Re.

Inductive regex : Type :=
| Lit (c : ascii)                  (* an escaped literal, [\(] or [\)] *)
| OneOrMore (cls : ascii -> bool)  (* [[set]+], greedy *)
| Group (r : regex)                (* the capturing group 1 *)
| Seq (r1 r2 : regex).

(** [cls+] in front of [s], then the continuation on what is left. *)
Fixpoint greedy_plus {R : Type} (cls : ascii -> bool) (s : string)
         (k : string -> option R) : option R :=
  match s with
  | EmptyString => None
  | String c s' =>
      if cls c then
        match greedy_plus cls s' k with
        | Some r => Some r
        | None => k s'
        end
      else None
  end.

(** Match [r] at the front of [s]; [g] is what group 1 holds so far, the
    continuation receives the rest of the subject and the group. *)
Fixpoint match_at {R : Type} (r : regex) (s : string) (g : option string)
         (k : string -> option string -> option R) : option R :=
  match r with
  | Lit c =>
      match s with
      | EmptyString => None
      | String d s' => if Ascii.eqb c d then k s' g else None
      end
  | OneOrMore cls => greedy_plus cls s (fun s' => k s' g)
  | Group r1 =>
      match_at r1 s g
        (fun s' _ => k s' (Some (substring 0 (String.length s - String.length s') s)))
  | Seq r1 r2 => match_at r1 s g (fun s' g' => match_at r2 s' g' k)
  end.

(** A match object, reduced to what the script reads of it. *)
Record match_object : Type := { group1 : option string }.

(** [re.search(r, s)]: the first position of [s] where [r] matches. *)
Fixpoint search (r : regex) (s : string) : option match_object :=
  match match_at r s None (fun _ g => Some {| group1 := g |}) with
  | Some m => Some m
  | None =>
      match s with
      | EmptyString => None
      | String _ s' => search r s'
      end
  end.

(** The set [[A-F0-9-]]. *)
Definition uuid_char (c : ascii) : bool :=
  ((("A" <=? c) && (c <=? "F")) || (("0" <=? c) && (c <=? "9")) || (c =? "-"))%char.

(** [r'\(([A-F0-9-]+)\)'] *)
Definition uuid_pattern : regex :=
  Seq (Lit "(") (Seq (Group (OneOrMore uuid_char)) (Lit ")")).

End Re.

(** ** Effects

    The script talks to the outside world through [print], [subprocess.run],
    [urllib.request.urlretrieve], [os.makedirs], [os.remove] and [os.rmdir].
    A computation yields the events it performed, in order, and either a
    value or the exception it raised. What the outside world answers is read
    from an [environment].

    The failures of the outside world that are modelled are a non-zero exit
    of [xcrun], an exception of [urlretrieve], and an [OSError] of
    [os.remove] or [os.rmdir]. That [xcrun] cannot be started at all, or
    that [os.makedirs] fails, is outside the model: [subprocess.run] always
    yields an exit status and the temporary directory can always be made. *)

Inductive exn : Type :=
| SystemExit (code : Z)              (* [sys.exit(code)]; not an [Exception] *)
| CalledProcessError (text : string) (* [subprocess.run(..., check=True)] *)
| URLError (text : string)           (* what [urlretrieve] raises *)
| OSError (text : string).           (* what [os.remove] and [os.rmdir] raise *)

(** [str(e)] as the diagnostics print it. *)
Definition exn_text (e : exn) : string :=
  match e with
  | SystemExit code => NilZero.string_of_int (Z.to_int code)
  | CalledProcessError text | URLError text | OSError text => text
  end.

(** [isinstance(e, Exception)]: [SystemExit] derives from [BaseException]. *)
Definition is_Exception (e : exn) : bool :=
  match e with SystemExit _ => false | _ => true end.

Definition is_CalledProcessError (e : exn) : bool :=
  match e with CalledProcessError _ => true | _ => false end.

Inductive event : Type :=
| Print (line : string)
| Run (argv : list string) (exit0 : bool)
| UrlRetrieve (url path : string) (ok : bool)
| MakeDirs (path : string)
| Remove (path : string) (ok : bool)
| RmDir (path : string) (ok : bool).

(** How a command run by [subprocess.run] ends: with status 0 and the text
    it wrote, or with a non-zero status; [text] is [str] of the
    [CalledProcessError] that [check=True] then raises. *)
Inductive process_result : Type :=
| Exit0 (stdout : string)
| ExitNonzero (text : string).

Record environment : Type := {
  run_command : list string -> process_result;
  (** [urlretrieve url path]: [None] when the file was written, else the
      text of the exception. *)
  fetch_error : string -> string -> option string;
  (** [os.remove path] and [os.rmdir path]: [None] when done, else the text
      of the [OSError]. *)
  remove_error : string -> option string;
  rmdir_error : string -> option string
}.

Inductive outcome (A : Type) : Type :=
| Ret (a : A)
| Raise (e : exn).
Arguments Ret {A} a.
Arguments Raise {A} e.

Definition M (A : Type) : Type := list event * outcome A.

Definition ret {A : Type} (a : A) : M A := ([], Ret a).
Definition raise {A : Type} (e : exn) : M A := ([], Raise e).
Definition emit (ev : event) : M unit := ([ev], Ret tt).

Definition bind {A B : Type} (m : M A) (f : A -> M B) : M B :=
  match m with
  | (t, Ret a) => let (t', o) := f a in (t ++ t', o)%list
  | (t, Raise e) => (t, Raise e)
  end.

(** [try: m  except <catches> as e: handler e] *)
Definition try_except {A : Type} (m : M A) (catches : exn -> bool)
           (handler : exn -> M A) : M A :=
  match m with
  | (t, Ret a) => (t, Ret a)
  | (t, Raise e) =>
      if catches e then let (t', o) := handler e in (t ++ t', o)%list
      else (t, Raise e)
  end.

Declare Scope py_scope.
Delimit Scope py_scope with py.
Notation "x <- m ;; k" := (bind m (fun x => k))
  (at level 61, m at next level, right associativity) : py_scope.
Notation "m ;; k" := (bind m (fun _ => k))
  (at level 61, right associativity) : py_scope.
Open Scope py_scope.

Definition nl : string := String "010" EmptyString.

Section Script.

Variable env : environment.

Definition print (line : string) : M unit := emit (Print line).

(** [subprocess.run(argv, capture_output=True, check=True)], reduced to
    the captured standard output. *)
Definition subprocess_run (argv : list string) : M string :=
  match run_command env argv with
  | Exit0 out => emit (Run argv true) ;; ret out
  | ExitNonzero text => emit (Run argv false) ;; raise (CalledProcessError text)
  end.

Definition urlretrieve (url path : string) : M unit :=
  match fetch_error env url path with
  | None => emit (UrlRetrieve url path true)
  | Some text => emit (UrlRetrieve url path false) ;; raise (URLError text)
  end.

(** [os.makedirs(path, exist_ok=True)] *)
Definition os_makedirs (path : string) : M unit := emit (MakeDirs path).

Definition os_remove (path : string) : M unit :=
  match remove_error env path with
  | None => emit (Remove path true)
  | Some text => emit (Remove path false) ;; raise (OSError text)
  end.

Definition os_rmdir (path : string) : M unit :=
  match rmdir_error env path with
  | None => emit (RmDir path true)
  | Some text => emit (RmDir path false) ;; raise (OSError text)
  end.

Definition sys_exit {A : Type} (code : Z) : M A := raise (SystemExit code).

(** The loop of [get_simulator_id] over the lines of the device list: the
    first line with 'Booted' in it on which the pattern is found decides. *)
Fixpoint scan_lines (lines : list string) : option string :=
  match lines with
  | [] => None
  | line :: rest =>
      if Str.contains "Booted" line then
        match Re.search Re.uuid_pattern line with
        | Some m => Re.group1 m
        | None => scan_lines rest
        end
      else scan_lines rest
  end.

(** [None] is Python's [None], the absence of a booted simulator. *)
Definition get_simulator_id : M (option string) :=
  try_except
    (out <- subprocess_run ["xcrun"; "simctl"; "list"; "devices"] ;;
     ret (scan_lines (Str.split "010" out)))
    is_CalledProcessError
    (fun _ => ret None).

Definition download_image (url filepath : string) : M bool :=
  try_except
    (urlretrieve url filepath ;; ret true)
    is_Exception
    (fun e => print ("  ❌ Failed to download: " ++ exn_text e) ;; ret false).

Definition import_to_simulator (simulator_id filepath : string) : M bool :=
  try_except
    (subprocess_run ["xcrun"; "simctl"; "addmedia"; simulator_id; filepath] ;;
     ret true)
    is_CalledProcessError
    (fun e => print ("  ❌ Failed to import: " ++ exn_text e) ;; ret false).

(** The truth value of what [get_simulator_id] returned: [None] and the
    empty string are false. *)
Definition truthy (v : option string) : bool :=
  match v with
  | Some (String _ _) => true
  | _ => false
  end.

(** [f"{v}"] *)
Definition format_value (v : option string) : string :=
  match v with
  | Some s => s
  | None => "None"
  end.

(** [f"{temp_dir}/{city}_{i}.jpg"] *)
Definition filename (temp_dir city : string) (i : nat) : string :=
  temp_dir ++ "/" ++ city ++ "_" ++ Str.of_nat i ++ ".jpg".

(** One turn of the inner loop: item [i] of [city], from [total_imported]
    to its new value. *)
Definition process_item (simulator_id temp_dir city : string) (i : nat)
           (url : string) (total_imported : nat) : M nat :=
  let filename := filename temp_dir city i in
  print ("  [" ++ Str.of_nat i ++ "/10] Downloading " ++ Str.title city ++ " image...") ;;
  downloaded <- download_image url filename ;;
  if downloaded then
    print "  ✅ Downloaded" ;;
    imported <- import_to_simulator simulator_id filename ;;
    total_imported <-
      (if imported then
         print "  ✅ Imported to simulator" ;;
         ret (total_imported + 1)
       else ret total_imported) ;;
    os_remove filename ;;
    ret total_imported
  else ret total_imported.

(** [for i, url in enumerate(urls, i): ...] *)
Fixpoint for_urls (simulator_id temp_dir city : string) (i : nat)
         (urls : list string) (total_imported : nat) : M nat :=
  match urls with
  | [] => ret total_imported
  | url :: rest =>
      total_imported <- process_item simulator_id temp_dir city i url total_imported ;;
      for_urls simulator_id temp_dir city (S i) rest total_imported
  end.

(** [for city, urls in images.items(): ...] *)
Fixpoint for_cities (simulator_id temp_dir : string)
         (images : list (string * list string)) (total_imported : nat) : M nat :=
  match images with
  | [] => ret total_imported
  | (city, urls) :: rest =>
      print ("📸 Processing " ++ Str.title city ++ " images...") ;;
      total_imported <- for_urls simulator_id temp_dir city 1 urls total_imported ;;
      print "" ;;
      for_cities simulator_id temp_dir rest total_imported
  end.

End Script.

(** The catalog: a dict literal, iterated in the order it is written. *)
Definition IMAGES : list (string * list string) :=
  [ ("copenhagen",
     [ "https://images.unsplash.com/photo-1513622470522-26c3c8a854bc?w=800";
       "https://images.unsplash.com/photo-1564507592333-c60657eea523?w=800";
       "https://images.unsplash.com/photo-1549573925-9975a04a9a2d?w=800";
       "https://images.unsplash.com/photo-1557093793-e196ae071479?w=800";
       "https://images.unsplash.com/photo-1588698301085-57f4c7c4a8cb?w=800";
       "https://images.unsplash.com/photo-1599946347371-68eb71b16afc?w=800";
       "https://images.unsplash.com/photo-1589992602626-fa7c8f1f8f01?w=800";
       "https://images.unsplash.com/photo-1526391751351-0a4df8d8e511?w=800";
       "https://images.unsplash.com/photo-1602491453631-e2a5ad90a131?w=800";
       "https://images.unsplash.com/photo-1554939437-ecc492c67b78?w=800" ]);
    ("paris",
     [ "https://images.unsplash.com/photo-1502602898657-3e91760cbb34?w=800";
       "https://images.unsplash.com/photo-1499856871958-5b9627545d1a?w=800";
       "https://images.unsplash.com/photo-1511739001486-6bfe10ce785f?w=800";
       "https://images.unsplash.com/photo-1431274172761-fca41d930114?w=800";
       "https://images.unsplash.com/photo-1509439581779-6298f75bf6e5?w=800";
       "https://images.unsplash.com/photo-1522093007474-d86e9bf7ba6f?w=800";
       "https://images.unsplash.com/photo-1550340499-a6c60fc8287c?w=800";
       "https://images.unsplash.com/photo-1549144511-f099e773c147?w=800";
       "https://images.unsplash.com/photo-1505576391880-b3f9d713dc4f?w=800";
       "https://images.unsplash.com/photo-1500039436846-25ae2f11882e?w=800" ]);
    ("berlin",
     [ "https://images.unsplash.com/photo-1560969184-10fe8719e047?w=800";
       "https://images.unsplash.com/photo-1587330979470-3595ac045ab7?w=800";
       "https://images.unsplash.com/photo-1599946347371-68eb71b16afc?w=800";
       "https://images.unsplash.com/photo-1528728329032-2972f65dfb3f?w=800";
       "https://images.unsplash.com/photo-1566404791232-af9fe0ae8f8b?w=800";
       "https://images.unsplash.com/photo-1546726747-421c6d69c929?w=800";
       "https://images.unsplash.com/photo-1599098939570-fb3a1c88e999?w=800";
       "https://images.unsplash.com/photo-1587330979470-3595ac045ab7?w=800";
       "https://images.unsplash.com/photo-1560969184-10fe8719e047?w=800";
       "https://images.unsplash.com/photo-1528728329032-2972f65dfb3f?w=800" ]) ].

Definition temp_dir : string := "/tmp/wanderlog_test_images".

Definition main (env : environment) : M unit :=
  print ("🚀 Starting to import test images to iOS Simulator..." ++ nl) ;;
  simulator_id <- get_simulator_id env ;;
  (if negb (truthy simulator_id) then
     print "❌ No booted iOS Simulator found!" ;;
     print "Please start the iOS Simulator first, then run this script again." ;;
     sys_exit 1
   else ret tt) ;;
  print ("✅ Found simulator: " ++ format_value simulator_id ++ nl) ;;
  os_makedirs temp_dir ;;
  print ("📁 Created temp directory: " ++ temp_dir ++ nl) ;;
  total_imported <- for_cities env (format_value simulator_id) temp_dir IMAGES 0 ;;
  try_except (os_rmdir env temp_dir) (fun _ => true) (fun _ => ret tt) ;;
  print (nl ++ "✨ Done! Imported " ++ Str.of_nat total_imported
            ++ "/30 images to iOS Simulator.") ;;
  print ("📱 Open the Photos app in your simulator to see them." ++ nl).

(** The status the interpreter exits with: 0 when [main] returns, the code
    of an uncaught [SystemExit], 1 after the traceback of any other uncaught
    exception. *)
Definition exit_status (o : outcome unit) : Z :=
  match o with
  | Ret _ => 0
  | Raise (SystemExit code) => code
  | Raise _ => 1
  end.

(** Running the script: the events of the run and the exit status. *)
Definition run (env : environment) : list event * Z :=
  let (t, o) := main env in (t, exit_status o).

(** ** Vocabulary of the specification *)

(** [needle] occurs in [hay]. *)
Definition occurs (needle hay : string) : Prop :=
  exists pre post, hay = pre ++ needle ++ post.

(** An identifier token: not empty, made of [A]-[F], digits and hyphens. *)
Definition token (id : string) : Prop :=
  id <> "" /\
  forall c, In c (list_ascii_of_string id) ->
            In c (list_ascii_of_string "ABCDEF0123456789-").

(** [line] holds the token [id] in parentheses right after [pre]. *)
Definition token_at (line pre id : string) : Prop :=
  exists post, line = pre ++ "(" ++ id ++ ")" ++ post /\ token id.

Definition has_token (line : string) : Prop :=
  exists pre id, token_at line pre id.

(** [id] is the parenthesized token of [line] that starts first. *)
Definition first_token (line id : string) : Prop :=
  exists pre,
    token_at line pre id /\
    forall pre' id', token_at line pre' id' -> String.length pre <= String.length pre'.

(** [lines] has a line with the marker 'Booted' and a token on it; [id] is
    the first token of the first such line. *)
Definition located (lines : list string) (id : string) : Prop :=
  exists before line after,
    lines = (before ++ line :: after)%list /\
    occurs "Booted" line /\ first_token line id /\
    forall l, In l before -> occurs "Booted" l -> ~ has_token l.

(** The longest prefix of [s] in the set [p], and what follows it. *)
Fixpoint span (p : ascii -> bool) (s : string) : string * string :=
  match s with
  | EmptyString => (EmptyString, EmptyString)
  | String c s' =>
      if p c then let (run, rest) := span p s' in (String c run, rest)
      else (EmptyString, s)
  end.

(** The token that starts at the very front of [s], if there is one. *)
Definition token_here (s : string) : option string :=
  match s with
  | EmptyString => None
  | String d s1 =>
      if ("(" =? d)%char then
        match span Re.uuid_char s1 with
        | (String c run, String e _) =>
            if (")" =? e)%char then Some (String c run) else None
        | _ => None
        end
      else None
  end.

(** The command of [get_simulator_id]. *)
Definition list_devices : list string := ["xcrun"; "simctl"; "list"; "devices"].

(** The command of [import_to_simulator]. *)
Definition addmedia (simulator_id filepath : string) : list string :=
  ["xcrun"; "simctl"; "addmedia"; simulator_id; filepath].

(** [enumerate(l, start)] *)
Fixpoint enumerate {A : Type} (start : nat) (l : list A) : list (nat * A) :=
  match l with
  | [] => []
  | x :: l' => (start, x) :: enumerate (S start) l'
  end.

(** An item of a catalog: category, 1-based index, source URL. *)
Definition item : Type := string * nat * string.

Definition items_of (images : list (string * list string)) : list item :=
  flat_map (fun entry => map (fun iu => (fst entry, fst iu, snd iu))
                             (enumerate 1 (snd entry)))
           images.

(** The items of the static catalog, in the order the script visits them. *)
Definition catalog_items : list item := items_of IMAGES.

(** The temporary file of an item. *)
Definition item_file (it : item) : string :=
  let '(city, i, _) := it in filename temp_dir city i.

Definition item_url (it : item) : string := let '(_, _, url) := it in url.

Section Outcomes.

Variable env : environment.

(** The download of the item returns success. *)
Definition download_ok (it : item) : bool :=
  match fetch_error env (item_url it) (item_file it) with
  | None => true
  | Some _ => false
  end.

(** The import of the item's file returns success. *)
Definition import_ok (simulator_id : string) (it : item) : bool :=
  match run_command env (addmedia simulator_id (item_file it)) with
  | Exit0 _ => true
  | ExitNonzero _ => false
  end.


(** Download and import of the item both return success. *)
Definition both_ok (simulator_id : string) (it : item) : bool :=
  download_ok it && import_ok simulator_id it.

End Outcomes.

(** The events that belong to a file: its import and its removal. *)
Definition is_import_of (path : string) (ev : event) : bool :=
  match ev with
  | Run ["xcrun"; "simctl"; "addmedia"; _; p] _ => String.eqb p path
  | _ => false
  end.

Definition is_removal_of (path : string) (ev : event) : bool :=
  match ev with
  | Remove p _ => String.eqb p path
  | _ => false
  end.

Definition is_download (ev : event) : bool :=
  match ev with UrlRetrieve _ _ _ => true | _ => false end.

Definition is_import (ev : event) : bool :=
  match ev with
  | Run ["xcrun"; "simctl"; "addmedia"; _; _] _ => true
  | _ => false
  end.

Definition is_successful_import (ev : event) : bool :=
  match ev with
  | Run ["xcrun"; "simctl"; "addmedia"; _; _] true => true
  | _ => false
  end.

Definition is_makedirs (ev : event) : bool :=
  match ev with MakeDirs _ => true | _ => false end.

(** The last two lines of a run that reached its end. *)
Definition summary_line (total_imported : nat) : string :=
  nl ++ "✨ Done! Imported " ++ Str.of_nat total_imported
     ++ "/30 images to iOS Simulator.".

Definition closing_line : string :=
  "📱 Open the Photos app in your simulator to see them." ++ nl.

(** ** Sample environments *)

Module Sample.

Definition device_list : string :=
  "== Devices ==" ++ nl ++
  "-- iOS 17.0 --" ++ nl ++
  "    iPhone 14 (AAAA-0000) (Shutdown)" ++ nl ++
  "    iPad (Booted once) (lost)" ++ nl ++
  "    iPhone 15 (ABCD-1234) (Booted)" ++ nl.

(** A booted simulator, a network and a file system that never fail. *)
Definition all_fine : environment :=
  {| run_command := fun argv =>
       match argv with
       | [_; _; "list"; _] => Exit0 device_list
       | _ => Exit0 ""
       end;
     fetch_error := fun _ _ => None;
     remove_error := fun _ => None;
     rmdir_error := fun _ => None |}.

(** The device list names the running device with another casing. *)
Definition lowercase_marker : environment :=
  {| run_command := fun _ => Exit0 ("    iPhone 15 (ABCD-1234) (booted)" ++ nl);
     fetch_error := fun _ _ => None;
     remove_error := fun _ => None;
     rmdir_error := fun _ => None |}.

(** [simctl] fails whatever it is asked. *)
Definition simctl_fails : environment :=
  {| run_command := fun _ => ExitNonzero "Command returned non-zero exit status 72.";
     fetch_error := fun _ _ => None;
     remove_error := fun _ => None;
     rmdir_error := fun _ => None |}.

Definition file_of (city : string) (i : nat) : string := filename temp_dir city i.

(** The download of paris 3 times out, the import of berlin 1 and of
    berlin 2 is refused, the temporary directory cannot be removed. *)
Definition flaky : environment :=
  {| run_command := fun argv =>
       match argv with
       | [_; _; "list"; _] => Exit0 device_list
       | [_; _; "addmedia"; _; path] =>
           if (path =? file_of "berlin" 1) || (path =? file_of "berlin" 2)
           then ExitNonzero "Command returned non-zero exit status 1."
           else Exit0 ""
       | _ => Exit0 ""
       end;
     fetch_error := fun _ path =>
       if path =? file_of "paris" 3 then Some "<urlopen error timed out>" else None;
     remove_error := fun _ => None;
     rmdir_error := fun _ => Some "[Errno 66] Directory not empty" |}.

(** Everything works, but the file of copenhagen 2 cannot be removed. *)
Definition remove_fails : environment :=
  {| run_command := run_command all_fine;
     fetch_error := fun _ _ => None;
     remove_error := fun path =>
       if path =? file_of "copenhagen" 2
       then Some "[Errno 2] No such file or directory"
       else None;
     rmdir_error := fun _ => None |}.

End Sample.

(** What one turn of the inner loop does, by the three answers of the
    outside world. *)
Definition announce (city : string) (i : nat) : event :=
  Print ("  [" ++ Str.of_nat i ++ "/10] Downloading " ++ Str.title city ++ " image...").

Definition import_events (env : environment) (simulator_id file : string) : list event :=
  match run_command env (addmedia simulator_id file) with
  | Exit0 _ =>
      [Run (addmedia simulator_id file) true; Print "  ✅ Imported to simulator"]
  | ExitNonzero text =>
      [Run (addmedia simulator_id file) false; Print ("  ❌ Failed to import: " ++ text)]
  end.

Definition remove_event (env : environment) (file : string) : event :=
  Remove file (match remove_error env file with None => true | Some _ => false end).

(** One turn of the inner loop, for an item. *)
Definition item_run (env : environment) (simulator_id : string) (it : item)
           (total_imported : nat) : M nat :=
  let '(city, i, url) := it in
  process_item env simulator_id temp_dir city i url total_imported.

(** The items of one category, numbered from [start]. *)
Definition category_items (city : string) (start : nat) (urls : list string) : list item :=
  map (fun iu => (city, fst iu, snd iu)) (enumerate start urls).

(** A stretch of the trace of the loops: a line of progress, or all the
    events of one turn for one of the items [its]. *)
Definition loop_chunk (env : environment) (simulator_id : string)
           (its : list item) (chunk : list event) : Prop :=
  (exists line, chunk = [Print line]) \/
  (exists it total, In it its /\ chunk = fst (item_run env simulator_id it total)).

(** The events of [main] before the loops, once a simulator was found. *)
Definition preamble (simulator_id : string) : list event :=
  [ Print ("🚀 Starting to import test images to iOS Simulator..." ++ nl);
    Run list_devices true;
    Print ("✅ Found simulator: " ++ simulator_id ++ nl);
    MakeDirs temp_dir;
    Print ("📁 Created temp directory: " ++ temp_dir ++ nl) ].

(** The events of [main] after the loops. *)
Definition epilogue (env : environment) (total_imported : nat) : list event :=
  [ RmDir temp_dir (match rmdir_error env temp_dir with None => true | Some _ => false end);
    Print (summary_line total_imported);
    Print closing_line ].

(** The events of a run without a booted simulator. *)
Definition fatal_events (query_exit0 : bool) : list event :=
  [ Print ("🚀 Starting to import test images to iOS Simulator..." ++ nl);
    Run list_devices query_exit0;
    Print "❌ No booted iOS Simulator found!";
    Print "Please start the iOS Simulator first, then run this script again." ].

(** No string of the list occurs twice in it. *)
Fixpoint distinct (l : list string) : bool :=
  match l with
  | [] => true
  | x :: l' => negb (existsb (String.eqb x) l') && distinct l'
  end.

(** The events of a turn whose download failed with [text]. *)
Definition failed_download_events (city : string) (i : nat) (url text : string) : list event :=
  [ announce city i;
    UrlRetrieve url (filename temp_dir city i) false;
    Print ("  ❌ Failed to download: " ++ text) ].

(** The events of a turn whose download succeeded. *)
Definition downloaded_events (env : environment) (simulator_id city : string)
           (i : nat) (url : string) : list event :=
  ([ announce city i;
     UrlRetrieve url (filename temp_dir city i) true;
     Print "  ✅ Downloaded" ]
   ++ import_events env simulator_id (filename temp_dir city i)
   ++ [remove_event env (filename temp_dir city i)])%list.

Definition is_digit (c : ascii) : bool := (("0" <=? c) && (c <=? "9"))%char.

Definition not_underscore (c : ascii) : bool := negb (c =? "_")%char.

(** [images[city]], when the key is there. *)
Fixpoint lookup (city : string) (images : list (string * list string))
  : option (list string) :=
  match images with
  | [] => None
  | (key, urls) :: rest => if key =? city then Some urls else lookup city rest
  end.

(** ** Vocabulary of the further properties *)

Definition no_newline (c : ascii) : bool := negb (c =? "010")%char.

Definition not_open_paren (c : ascii) : bool := negb (c =? "(")%char.

(** The events of the turn of an item; they do not depend on the counter. *)
Definition item_events (env : environment) (simulator_id : string) (it : item)
  : list event :=
  let '(city, i, url) := it in
  match fetch_error env url (filename temp_dir city i) with
  | Some text => failed_download_events city i url text
  | None => downloaded_events env simulator_id city i url
  end.

(** The download, the import and the removal of an item, as events. *)
Definition download_event (env : environment) (it : item) : event :=
  UrlRetrieve (item_url it) (item_file it) (download_ok env it).

Definition import_event (env : environment) (simulator_id : string) (it : item) : event :=
  Run (addmedia simulator_id (item_file it)) (import_ok env simulator_id it).

Definition is_print (ev : event) : bool :=
  match ev with Print _ => true | _ => false end.


(** [env] with another answer to [os.rmdir]. *)
Definition set_rmdir_error (env : environment) (answer : string -> option string)
  : environment :=
  {| run_command := run_command env;
     fetch_error := fetch_error env;
     remove_error := remove_error env;
     rmdir_error := answer |}.

Module Sample2.

(** Two simulators are booted. *)
Definition first_lines : string :=
  "== Devices ==" ++ nl ++
  "-- iOS 17.0 --" ++ nl ++
  "    iPhone 14 (AAAA-0000) (Shutdown)" ++ nl ++
  "    iPhone 15 (ABCD-1234) (Booted)".

Definition more_lines : string :=
  "    iPhone 16 (FFFF-9999) (Booted)" ++ nl.

Definition two_booted : environment :=
  {| run_command := fun argv =>
       match argv with
       | [_; _; "list"; _] => Exit0 (first_lines ++ nl ++ more_lines)
       | _ => Exit0 ""
       end;
     fetch_error := fun _ _ => None;
     remove_error := fun _ => None;
     rmdir_error := fun _ => None |}.

End Sample2.

Definition is_rmdir (ev : event) : bool :=
  match ev with RmDir _ _ => true | _ => false end.


(** ** Strings: lemmas *)

Lemma append_assoc (a b c : string) : (a ++ b) ++ c = a ++ (b ++ c).
Proof. induction a as [|x a IH]; simpl; [reflexivity | now rewrite IH]. Qed.

Lemma append_nil_r (a : string) : a ++ "" = a.
Proof. induction a as [|x a IH]; simpl; [reflexivity | now rewrite IH]. Qed.

Lemma length_append (a b : string) :
  String.length (a ++ b) = String.length a + String.length b.
Proof. induction a as [|x a IH]; simpl; [reflexivity | now rewrite IH]. Qed.

Lemma substring_prefix (a b : string) :
  substring 0 (String.length a) (a ++ b) = a.
Proof.
  induction a as [|x a IH]; simpl.
  - destruct b; reflexivity.
  - now rewrite IH.
Qed.

Lemma prefix_append (a b : string) : String.prefix a (a ++ b) = true.
Proof.
  induction a as [|x a IH]; simpl.
  - destruct b; reflexivity.
  - destruct (ascii_dec x x) as [_|N]; [exact IH | now destruct N].
Qed.

Lemma prefix_split (a s : string) :
  String.prefix a s = true -> exists post, s = a ++ post.
Proof.
  revert s; induction a as [|x a IH]; intros s H.
  - now exists s.
  - destruct s as [|y s]; simpl in H; [discriminate|].
    destruct (ascii_dec x y) as [->|_]; [|discriminate].
    destruct (IH _ H) as [post ->]. now exists post.
Qed.

(** [needle in hay] is true exactly when [needle] occurs in [hay]. *)
Lemma contains_occurs (needle hay : string) :
  Str.contains needle hay = true <-> occurs needle hay.
Proof.
  induction hay as [|c hay IH]; cbn [Str.contains].
  - rewrite orb_false_r. split.
    + intros H. destruct (prefix_split _ _ H) as [post E].
      exists "", post. exact E.
    + intros [pre [post E]]. destruct pre; simpl in E.
      * rewrite E. apply prefix_append.
      * discriminate.
  - rewrite orb_true_iff, IH. split.
    + intros [H | [pre [post E]]].
      * destruct (prefix_split _ _ H) as [post E]. exists "", post. exact E.
      * exists (String c pre), post. simpl. now rewrite E.
    + intros [pre [post E]]. destruct pre as [|x pre]; simpl in E.
      * left. rewrite E. apply prefix_append.
      * right. injection E as _ E. now exists pre, post.
Qed.

Lemma all_append (p : ascii -> bool) (a b : string) :
  Str.all p (a ++ b) = Str.all p a && Str.all p b.
Proof.
  induction a as [|x a IH]; simpl; [reflexivity|].
  now rewrite IH, andb_assoc.
Qed.

Lemma all_impl (p q : ascii -> bool) (s : string) :
  (forall c, p c = true -> q c = true) -> Str.all p s = true -> Str.all q s = true.
Proof.
  intros Hpq. induction s as [|x s IH]; simpl; [reflexivity|].
  intros H. apply andb_true_iff in H as [Hx Hs].
  now rewrite (Hpq _ Hx), (IH Hs).
Qed.

Lemma append_cancel_l (a x y : string) : a ++ x = a ++ y -> x = y.
Proof.
  induction a as [|c a IH]; simpl; [trivial|].
  intros [= H]. now apply IH.
Qed.

Lemma append_cancel_r (a b c : string) : a ++ c = b ++ c -> a = b.
Proof.
  revert b. induction a as [|x a IH]; intros [|y b] H; simpl in H.
  - reflexivity.
  - apply (f_equal String.length) in H. simpl in H.
    rewrite length_append in H. lia.
  - apply (f_equal String.length) in H. simpl in H.
    rewrite length_append in H. lia.
  - injection H as -> H. now rewrite (IH _ H).
Qed.

(** A text without underscore after an underscore: the underscore is the
    last one, so what is in front of it is determined. *)
Lemma split_at_last_underscore (c1 c2 r1 r2 : string) :
  Str.all not_underscore r1 = true -> Str.all not_underscore r2 = true ->
  c1 ++ "_" ++ r1 = c2 ++ "_" ++ r2 -> c1 = c2 /\ r1 = r2.
Proof.
  intros H1 H2. revert c2.
  induction c1 as [|x c1 IH]; intros [|y c2] E; simpl in E.
  - injection E as E. now split.
  - injection E as _ E. subst r1.
    rewrite !all_append in H1. simpl in H1.
    now rewrite andb_false_r in H1.
  - injection E as _ E. subst r2.
    rewrite !all_append in H2. simpl in H2.
    now rewrite andb_false_r in H2.
  - injection E as -> E. destruct (IH _ E) as [-> ->]. now split.
Qed.

Lemma digit_not_underscore (c : ascii) : is_digit c = true -> not_underscore c = true.
Proof.
  destruct c as [[] [] [] [] [] [] [] []]; intros H; try discriminate H; reflexivity.
Qed.

(** [str(n)] is made of digits. *)
Lemma of_nat_digits (n : nat) : Str.all is_digit (Str.of_nat n) = true.
Proof.
  unfold Str.of_nat.
  assert (H : forall d, Str.all is_digit (NilEmpty.string_of_uint d) = true).
  { induction d; simpl; try rewrite IHd; reflexivity. }
  destruct (Nat.to_uint n);
    match goal with
    | |- context [NilZero.string_of_uint ?d] => exact (H d)
    end.
Qed.

(** [str] tells the numbers apart. *)
Lemma of_nat_inj (n m : nat) : Str.of_nat n = Str.of_nat m -> n = m.
Proof.
  assert (Hnn : forall k, Nat.to_uint k <> Decimal.Nil).
  { intros k. rewrite <- (Unsigned.of_to k) at 1. rewrite Unsigned.to_of.
    unfold Decimal.unorm. now destruct (Decimal.nzhead (Nat.to_uint k)). }
  unfold Str.of_nat. intros E.
  apply (f_equal NilZero.uint_of_string) in E.
  rewrite !NilZero.usu in E by apply Hnn.
  injection E as E. now apply Unsigned.to_uint_inj.
Qed.

(** The name of a temporary file determines the category and the index. *)
Lemma filename_inj (dir city1 city2 : string) (i1 i2 : nat) :
  filename dir city1 i1 = filename dir city2 i2 -> city1 = city2 /\ i1 = i2.
Proof.
  unfold filename. intros E.
  apply append_cancel_l in E. apply (append_cancel_l "/") in E.
  assert (Hr : forall i, Str.all not_underscore (Str.of_nat i ++ ".jpg") = true).
  { intros i. rewrite all_append, andb_true_iff. split; [|reflexivity].
    apply (all_impl is_digit); [apply digit_not_underscore | apply of_nat_digits]. }
  apply split_at_last_underscore in E as [-> E]; try apply Hr.
  apply append_cancel_r in E. split; [reflexivity | now apply of_nat_inj].
Qed.

(** ** The pattern: lemmas *)

Lemma uuid_char_spec (c : ascii) :
  Re.uuid_char c = true <-> In c (list_ascii_of_string "ABCDEF0123456789-").
Proof.
  assert (E : Re.uuid_char c
              = existsb (Ascii.eqb c) (list_ascii_of_string "ABCDEF0123456789-")).
  { destruct c as [[] [] [] [] [] [] [] []]; reflexivity. }
  rewrite E, existsb_exists. split.
  - intros [x [Hin Hx]]. apply Ascii.eqb_eq in Hx. now subst.
  - intros Hin. exists c. split; [exact Hin | apply Ascii.eqb_refl].
Qed.

Lemma all_uuid_char (id : string) :
  Str.all Re.uuid_char id = true <->
  forall c, In c (list_ascii_of_string id) ->
            In c (list_ascii_of_string "ABCDEF0123456789-").
Proof.
  induction id as [|x id IH]; cbn [Str.all list_ascii_of_string].
  - split; [intros _ c [] | reflexivity].
  - rewrite andb_true_iff, IH, uuid_char_spec. split.
    + intros [Hx Hid] c [<- | Hc]; [exact Hx | now apply Hid].
    + intros H. split; [apply H; now left | intros c Hc; apply H; now right].
Qed.

Section Span.

Variable p : ascii -> bool.

Lemma span_append (s : string) :
  fst (span p s) ++ snd (span p s) = s.
Proof.
  induction s as [|c s IH]; simpl; [reflexivity|].
  destruct (p c); [|reflexivity].
  destruct (span p s) as [run rest]; simpl in *. now rewrite IH.
Qed.

Lemma span_all (s : string) : Str.all p (fst (span p s)) = true.
Proof.
  induction s as [|c s IH]; simpl; [reflexivity|].
  destruct (p c) eqn:Hc; [|reflexivity].
  destruct (span p s) as [run rest]; simpl in *. now rewrite Hc, IH.
Qed.

Lemma span_empty_run (s rest : string) : span p s = ("", rest) -> rest = s.
Proof.
  intros H. generalize (span_append s). now rewrite H.
Qed.

(** A run in the set that ends before a character outside of it is the
    longest one. *)
Lemma span_stop (run : string) (c : ascii) (post : string) :
  Str.all p run = true -> p c = false ->
  span p (run ++ String c post) = (run, String c post).
Proof.
  intros Hrun Hc. induction run as [|x run IH]; simpl in *.
  - now rewrite Hc.
  - apply andb_true_iff in Hrun as [Hx Hrun].
    now rewrite Hx, (IH Hrun).
Qed.

(** A greedy repeat followed by something that cannot start inside the
    set: only the longest run can lead to a match, so giving back
    characters never helps. *)
Lemma greedy_plus_stop {R : Type} (k : string -> option R) (s : string) :
  (forall c s', p c = true -> k (String c s') = None) ->
  Re.greedy_plus p s k
  = match span p s with
    | (String _ _, rest) => k rest
    | _ => None
    end.
Proof.
  intros Hk. induction s as [|c s IH]; simpl; [reflexivity|].
  destruct (p c) eqn:Hc; [|reflexivity].
  rewrite IH. destruct (span p s) as [run rest] eqn:Hspan.
  destruct run as [|x run].
  - now rewrite (span_empty_run _ _ Hspan).
  - destruct (k rest) eqn:Hrest; [reflexivity|].
    generalize (span_append s), (span_all s). rewrite Hspan. simpl.
    intros <- Hx. apply andb_true_iff in Hx as [Hx _]. now apply Hk.
Qed.

End Span.

(** Matching the pattern at the front of [s] finds the token that starts
    there. *)
Lemma match_at_uuid_pattern (s : string) :
  Re.match_at Re.uuid_pattern s None (fun _ g => Some {| Re.group1 := g |})
  = option_map (fun id => {| Re.group1 := Some id |}) (token_here s).
Proof.
  destruct s as [|d s1]; [reflexivity|].
  cbn [Re.uuid_pattern Re.match_at token_here].
  destruct ("(" =? d)%char; [|reflexivity].
  rewrite greedy_plus_stop.
  - generalize (span_append Re.uuid_char s1).
    destruct (span Re.uuid_char s1) as [run rest]. cbn [fst snd]. intros E.
    destruct run as [|c run]; [reflexivity|].
    destruct rest as [|e rest]; [reflexivity|].
    destruct (")" =? e)%char; [|reflexivity].
    cbn [option_map]. subst s1.
    now rewrite length_append, Nat.add_sub, substring_prefix.
  - intros c s' Hc.
    destruct (Ascii.eqb_spec ")" c) as [<-|_]; [discriminate Hc | reflexivity].
Qed.

Lemma search_uuid_pattern (s : string) :
  Re.search Re.uuid_pattern s
  = match token_here s with
    | Some id => Some {| Re.group1 := Some id |}
    | None =>
        match s with
        | EmptyString => None
        | String _ s' => Re.search Re.uuid_pattern s'
        end
    end.
Proof.
  destruct s as [|d s1]; cbn [Re.search]; rewrite match_at_uuid_pattern;
    destruct (token_here _); reflexivity.
Qed.

Lemma token_here_spec (s id : string) :
  token_here s = Some id <-> token_at s "" id.
Proof.
  unfold token_at, token. split.
  - destruct s as [|d s1]; [discriminate|]. cbn [token_here].
    destruct (Ascii.eqb_spec "(" d) as [<-|_]; [|discriminate].
    generalize (span_append Re.uuid_char s1), (span_all Re.uuid_char s1).
    destruct (span Re.uuid_char s1) as [run rest]. cbn [fst snd].
    intros E Hall. destruct run as [|c run]; [discriminate|].
    destruct rest as [|e rest]; [discriminate|].
    destruct (Ascii.eqb_spec ")" e) as [<-|_]; [|discriminate].
    intros [= <-]. exists rest. split; [now rewrite <- E|].
    split; [discriminate | now apply all_uuid_char].
  - intros [post [-> [Hne Hall]]]. apply all_uuid_char in Hall.
    cbn. rewrite (span_stop _ _ ")" post Hall eq_refl).
    destruct id; [now destruct Hne | reflexivity].
Qed.

Lemma token_at_nil (pre id : string) : ~ token_at "" pre id.
Proof. intros [post [E _]]. destruct pre; discriminate E. Qed.

Lemma token_at_cons (c : ascii) (s pre id : string) :
  token_at (String c s) pre id <->
  (pre = "" /\ token_here (String c s) = Some id) \/
  (exists pre', pre = String c pre' /\ token_at s pre' id).
Proof.
  split.
  - intros H. destruct pre as [|x pre'].
    + left. split; [reflexivity | now apply token_here_spec].
    + right. destruct H as [post [E Htok]]. injection E as <- E.
      exists pre'. split; [reflexivity | now exists post].
  - intros [[-> H] | [pre' [-> [post [E Htok]]]]].
    + now apply token_here_spec.
    + exists post. split; [simpl; now rewrite E | exact Htok].
Qed.

(** [re.search] with the pattern returns the first parenthesized token. *)
Lemma search_first_token (s id : string) :
  Re.search Re.uuid_pattern s = Some {| Re.group1 := Some id |} <-> first_token s id.
Proof.
  induction s as [|c s IH]; rewrite search_uuid_pattern.
  - cbn. split; [discriminate|].
    intros [pre [H _]]. now apply token_at_nil in H.
  - destruct (token_here (String c s)) as [id0|] eqn:Hhere.
    + split.
      * intros [= <-]. exists "". split; [now apply token_here_spec|].
        intros pre' id' _. apply Nat.le_0_l.
      * intros [pre [Hat Hmin]].
        pose proof (Hmin _ _ (proj1 (token_here_spec _ _) Hhere)) as Hle.
        destruct pre; [|simpl in Hle; lia].
        apply token_here_spec in Hat. congruence.
    + rewrite IH. split.
      * intros [pre [Hat Hmin]]. exists (String c pre). split.
        -- apply token_at_cons. right. now exists pre.
        -- intros pre2 id2 H2. apply token_at_cons in H2.
           destruct H2 as [[_ H2] | [pre2' [-> H2]]]; [congruence|].
           simpl. apply le_n_S. now apply (Hmin _ id2).
      * intros [pre [Hat Hmin]]. apply token_at_cons in Hat.
        destruct Hat as [[_ Hat] | [pre' [-> Hat]]]; [congruence|].
        exists pre'. split; [exact Hat|].
        intros pre2 id2 H2.
        assert (H3 : token_at (String c s) (String c pre2) id2).
        { apply token_at_cons. right. now exists pre2. }
        apply Hmin in H3. simpl in H3. lia.
Qed.

(** The group of a match of the pattern always holds a string. *)
Lemma search_group (s : string) (m : Re.match_object) :
  Re.search Re.uuid_pattern s = Some m ->
  exists id, m = {| Re.group1 := Some id |}.
Proof.
  induction s as [|c s IH]; rewrite search_uuid_pattern.
  - discriminate.
  - destruct (token_here (String c s)) as [id0|].
    + intros [= <-]. now exists id0.
    + exact IH.
Qed.

Lemma first_token_has_token (s id : string) : first_token s id -> has_token s.
Proof. intros [pre [H _]]. now exists pre, id. Qed.

Lemma search_none (s : string) :
  Re.search Re.uuid_pattern s = None <-> ~ has_token s.
Proof.
  induction s as [|c s IH]; rewrite search_uuid_pattern.
  - split; [|reflexivity]. intros _ [pre [id H]]. now apply token_at_nil in H.
  - destruct (token_here (String c s)) as [id0|] eqn:Hhere.
    + split; [discriminate|]. intros H. destruct H.
      exists "", id0. now apply token_here_spec.
    + rewrite IH. split.
      * intros Hs [pre [id H]]. apply token_at_cons in H.
        destruct H as [[_ H] | [pre' [_ H]]]; [congruence|].
        apply Hs. now exists pre', id.
      * intros Hs [pre [id H]]. apply Hs. exists (String c pre), id.
        apply token_at_cons. right. now exists pre.
Qed.

(** ** The Device Locator: lemmas *)

Lemma scan_lines_located (lines : list string) (id : string) :
  scan_lines lines = Some id <-> located lines id.
Proof.
  induction lines as [|line rest IH]; cbn [scan_lines].
  - split; [discriminate|].
    intros [before [l [after [E _]]]]. now destruct before.
  - assert (Hskip : (occurs "Booted" line -> ~ has_token line) ->
                    located (line :: rest) id <-> located rest id).
    { intros Hno. split.
      - intros [before [l [after [E [Hb [Hf Hprev]]]]]].
        destruct before as [|l0 before]; injection E as <- E.
        + destruct (Hno Hb). now apply first_token_has_token in Hf.
        + exists before, l, after. repeat split; try assumption.
          intros l' Hin. apply Hprev. now right.
      - intros [before [l [after [E [Hb [Hf Hprev]]]]]].
        exists (line :: before), l, after. rewrite E.
        repeat split; try assumption.
        intros l' [<- | Hin]; [exact Hno | now apply Hprev]. }
    destruct (Str.contains "Booted" line) eqn:Hb.
    + apply contains_occurs in Hb.
      destruct (Re.search Re.uuid_pattern line) as [m|] eqn:Hs.
      * destruct (search_group _ _ Hs) as [id0 ->]. cbn [Re.group1].
        apply search_first_token in Hs. split.
        -- intros [= <-]. exists [], line, rest. repeat split; try assumption.
           intros l [].
        -- intros [before [l [after [E [_ [Hf Hprev]]]]]].
           destruct before as [|l0 before]; injection E as <- E.
           ++ apply search_first_token in Hs, Hf. congruence.
           ++ destruct (Hprev line (or_introl eq_refl) Hb).
              now apply first_token_has_token in Hs.
      * rewrite IH. symmetry. apply Hskip. intros _. now apply search_none.
    + rewrite IH. symmetry. apply Hskip. intros Hocc.
      apply contains_occurs in Hocc. congruence.
Qed.

Lemma scan_lines_none (lines : list string) :
  scan_lines lines = None <->
  forall l, In l lines -> occurs "Booted" l -> ~ has_token l.
Proof.
  induction lines as [|line rest IH]; cbn [scan_lines].
  - split; [intros _ l [] | reflexivity].
  - assert (Hskip : (occurs "Booted" line -> ~ has_token line) ->
                    (forall l, In l (line :: rest) -> occurs "Booted" l -> ~ has_token l)
                    <-> (forall l, In l rest -> occurs "Booted" l -> ~ has_token l)).
    { intros Hno. split.
      - intros H l Hin. apply H. now right.
      - intros H l [<- | Hin]; [exact Hno | now apply H]. }
    destruct (Str.contains "Booted" line) eqn:Hb.
    + apply contains_occurs in Hb.
      destruct (Re.search Re.uuid_pattern line) as [m|] eqn:Hs.
      * destruct (search_group _ _ Hs) as [id0 ->]. cbn [Re.group1].
        apply search_first_token, first_token_has_token in Hs.
        split; [discriminate|]. intros H.
        now destruct (H line (or_introl eq_refl) Hb).
      * rewrite IH. symmetry. apply Hskip. intros _. now apply search_none.
    + rewrite IH. symmetry. apply Hskip. intros Hocc.
      apply contains_occurs in Hocc. congruence.
Qed.

Lemma get_simulator_id_unfold (env : environment) :
  get_simulator_id env
  = match run_command env list_devices with
    | Exit0 out => ([Run list_devices true], Ret (scan_lines (Str.split "010" out)))
    | ExitNonzero _ => ([Run list_devices false], Ret None)
    end.
Proof.
  unfold get_simulator_id, subprocess_run. fold list_devices.
  destruct (run_command env list_devices); reflexivity.
Qed.

(** ** The Device Locator *)

(** C5. The Device Locator returns absence when the query command exits
    with a non-zero status. Otherwise it goes through the lines of the
    output: it returns an identifier exactly when some line holds the marker
    'Booted' and a parenthesized token of [A-F0-9-] characters, namely the
    first token of the first such line, and it returns absence exactly when
    no line holds both. It never raises. *)
Theorem device_locator_scans_for_booted_line (env : environment) :
  (exists v, snd (get_simulator_id env) = Ret v) /\
  match run_command env list_devices with
  | ExitNonzero _ => snd (get_simulator_id env) = Ret None
  | Exit0 out =>
      (forall id, snd (get_simulator_id env) = Ret (Some id)
                  <-> located (Str.split "010" out) id) /\
      (snd (get_simulator_id env) = Ret None
       <-> forall line, In line (Str.split "010" out) ->
                        occurs "Booted" line -> ~ has_token line)
  end.
Proof.
  rewrite get_simulator_id_unfold.
  destruct (run_command env list_devices) as [out | text]; cbn [snd].
  - split; [now eexists|]. split.
    + intros id. rewrite <- scan_lines_located. split; congruence.
    + rewrite <- scan_lines_none. split; congruence.
  - split; [now eexists | reflexivity].
Qed.

(** C10. An identifier that the Device Locator returns is not empty and
    made of the characters A-F, 0-9 and '-' only; the query command exited
    with status 0, and the identifier is the first parenthesized token of
    the first line of its output that holds the substring 'Booted', in this
    very casing, together with such a token. *)
Theorem located_identifier_is_token_of_booted_line
        (env : environment) (id : string)
        (H : snd (get_simulator_id env) = Ret (Some id)) :
  id <> "" /\
  (forall c, In c (list_ascii_of_string id) ->
             In c (list_ascii_of_string "ABCDEF0123456789-")) /\
  exists out before line after,
    run_command env list_devices = Exit0 out /\
    Str.split "010" out = (before ++ line :: after)%list /\
    Str.contains "Booted" line = true /\
    first_token line id /\
    forall l, In l before -> Str.contains "Booted" l = true -> ~ has_token l.
Proof.
  rewrite get_simulator_id_unfold in H.
  destruct (run_command env list_devices) as [out | text]; cbn [snd] in H;
    [|discriminate].
  injection H as H. apply scan_lines_located in H.
  destruct H as [before [line [after [E [Hb [Hf Hprev]]]]]].
  assert (Htok : token id).
  { destruct Hf as [pre [[post [_ Htok]] _]]. exact Htok. }
  split; [apply Htok|]. split; [apply Htok|].
  exists out, before, line, after. repeat split; try assumption.
  - now apply contains_occurs.
  - intros l Hin Hl. apply Hprev; [exact Hin | now apply contains_occurs].
Qed.

Lemma located_identifier_is_token_of_booted_line_witness :
  snd (get_simulator_id Sample.all_fine) = Ret (Some "ABCD-1234") /\
  "ABCD-1234" <> "" /\
  (forall c, In c (list_ascii_of_string "ABCD-1234") ->
             In c (list_ascii_of_string "ABCDEF0123456789-")) /\
  exists out before line after,
    run_command Sample.all_fine list_devices = Exit0 out /\
    Str.split "010" out = (before ++ line :: after)%list /\
    Str.contains "Booted" line = true /\
    first_token line "ABCD-1234" /\
    forall l, In l before -> Str.contains "Booted" l = true -> ~ has_token l.
Proof.
  split; [reflexivity|].
  apply (located_identifier_is_token_of_booted_line Sample.all_fine "ABCD-1234").
  reflexivity.
Defined.

(** ** The Orchestrator: lemmas *)

Lemma bind_ret_inv {A B : Type} (m : M A) (f : A -> M B) (t : list event) (b : B) :
  bind m f = (t, Ret b) ->
  exists t1 a t2, m = (t1, Ret a) /\ f a = (t2, Ret b) /\ t = (t1 ++ t2)%list.
Proof.
  unfold bind. destruct m as [t1 [a|e]]; [|discriminate].
  destruct (f a) as [t2 o] eqn:Hf. intros [= <- ->]. now exists t1, a, t2.
Qed.

Lemma bind_events {A B : Type} (m : M A) (f : A -> M B) (ev : event) :
  In ev (fst (bind m f)) <->
  In ev (fst m) \/ exists a, snd m = Ret a /\ In ev (fst (f a)).
Proof.
  unfold bind. destruct m as [t1 [a|e]]; cbn [fst snd].
  - destruct (f a) as [t2 o] eqn:Hf. cbn [fst]. rewrite in_app_iff. split.
    + intros [H|H]; [now left | right; exists a; now rewrite Hf].
    + intros [H | [a' [[= <-] H]]]; [now left | right; now rewrite Hf in H].
  - split; [now left | intros [H | [a [[=] _]]]; exact H].
Qed.

(** The three cases of one turn of the inner loop. *)
Lemma process_item_unfold (env : environment) (simulator_id city : string)
      (i : nat) (url : string) (total_imported : nat) :
  process_item env simulator_id temp_dir city i url total_imported
  = let file := filename temp_dir city i in
    match fetch_error env url file with
    | Some text =>
        ([announce city i; UrlRetrieve url file false;
          Print ("  ❌ Failed to download: " ++ text)],
         Ret total_imported)
    | None =>
        (([announce city i; UrlRetrieve url file true; Print "  ✅ Downloaded"]
          ++ import_events env simulator_id file ++ [remove_event env file])%list,
         match remove_error env file with
         | Some text => Raise (OSError text)
         | None =>
             Ret (match run_command env (addmedia simulator_id file) with
                  | Exit0 _ => total_imported + 1
                  | ExitNonzero _ => total_imported
                  end)
         end)
    end.
Proof.
  unfold process_item, download_image, import_to_simulator, urlretrieve,
    subprocess_run, os_remove, import_events, remove_event, announce.
  fold (addmedia simulator_id (filename temp_dir city i)).
  cbv zeta.
  destruct (fetch_error env url (filename temp_dir city i)); [reflexivity|].
  destruct (run_command env (addmedia simulator_id (filename temp_dir city i)));
    destruct (remove_error env (filename temp_dir city i)); reflexivity.
Qed.

Lemma loop_chunk_incl (env : environment) (simulator_id : string)
      (its its' : list item) (chunk : list event) :
  incl its its' -> loop_chunk env simulator_id its chunk ->
  loop_chunk env simulator_id its' chunk.
Proof.
  intros Hincl [H | [it [total [Hin E]]]]; [now left | right].
  exists it, total. split; [now apply Hincl | exact E].
Qed.

(** The trace of the inner loop is made of whole turns. *)
Lemma for_urls_chunks (env : environment) (simulator_id city : string)
      (urls : list string) :
  forall (i total : nat),
  exists chunks,
    fst (for_urls env simulator_id temp_dir city i urls total) = concat chunks /\
    Forall (loop_chunk env simulator_id (category_items city i urls)) chunks.
Proof.
  induction urls as [|url rest IH]; intros i total; cbn [for_urls].
  - exists []. split; [reflexivity | constructor].
  - pose (turn := item_run env simulator_id (city, i, url) total).
    change (process_item env simulator_id temp_dir city i url total) with turn.
    assert (Hturn : loop_chunk env simulator_id (category_items city i (url :: rest))
                               (fst turn)).
    { right. exists (city, i, url), total. split; [now left | reflexivity]. }
    destruct turn as [t1 [total'|e]]; unfold bind.
    + destruct (IH (S i) total') as [chunks [E Hall]].
      destruct (for_urls env simulator_id temp_dir city (S i) rest total') as [t2 o].
      cbn [fst] in *. exists (t1 :: chunks). split.
      * cbn [concat]. now rewrite E.
      * constructor; [exact Hturn|].
        eapply Forall_impl; [|exact Hall]. intros chunk.
        apply loop_chunk_incl. intros it Hin. now right.
    + exists [t1]. split; [cbn; now rewrite app_nil_r | now constructor].
Qed.

Lemma items_of_cons (city : string) (urls : list string)
      (images : list (string * list string)) :
  items_of ((city, urls) :: images)
  = (category_items city 1 urls ++ items_of images)%list.
Proof. reflexivity. Qed.

(** So is the trace of the outer loop, with its lines of progress. *)
Lemma for_cities_chunks (env : environment) (simulator_id : string)
      (images : list (string * list string)) :
  forall (total : nat),
  exists chunks,
    fst (for_cities env simulator_id temp_dir images total) = concat chunks /\
    Forall (loop_chunk env simulator_id (items_of images)) chunks.
Proof.
  induction images as [|[city urls] rest IH]; intros total; cbn [for_cities].
  - exists []. split; [reflexivity | constructor].
  - rewrite items_of_cons.
    destruct (for_urls_chunks env simulator_id city urls 1 total) as [inner [E1 H1]].
    assert (H1' : Forall (loop_chunk env simulator_id
                            (category_items city 1 urls ++ items_of rest)%list) inner).
    { eapply Forall_impl; [|exact H1]. intros chunk.
      apply loop_chunk_incl. intros it Hin. apply in_or_app. now left. }
    unfold print, emit. unfold bind at 1.
    destruct (for_urls env simulator_id temp_dir city 1 urls total) as [t1 [total'|e]];
      cbn [fst] in E1; unfold bind; cbn [app].
    + destruct (IH total') as [outer [E2 H2]].
      destruct (for_cities env simulator_id temp_dir rest total') as [t2 o].
      cbn [fst] in *.
      exists ([Print ("📸 Processing " ++ Str.title city ++ " images...")]
                :: inner ++ [Print ""] :: outer)%list.
      split.
      * cbn [concat app]. rewrite concat_app. cbn [concat app].
        now rewrite <- E1, <- E2.
      * constructor; [left; now eexists|].
        apply Forall_app. split; [exact H1'|].
        constructor; [left; now eexists|].
        eapply Forall_impl; [|exact H2]. intros chunk.
        apply loop_chunk_incl. intros it Hin. apply in_or_app. now right.
    + exists ([Print ("📸 Processing " ++ Str.title city ++ " images...")] :: inner).
      split; [cbn [concat app fst]; now rewrite E1 | ].
      constructor; [left; now eexists | exact H1'].
Qed.

(** A turn that returns adds one to the counter exactly when download and
    import both succeeded, and has one successful import among its events
    exactly then. *)
Lemma item_run_total (env : environment) (simulator_id : string) (it : item)
      (total : nat) (t : list event) (total' : nat) :
  item_run env simulator_id it total = (t, Ret total') ->
  total' = total + (if both_ok env simulator_id it then 1 else 0) /\
  length (filter is_successful_import t) = (if both_ok env simulator_id it then 1 else 0).
Proof.
  destruct it as [[city i] url]. unfold item_run. rewrite process_item_unfold.
  unfold both_ok, download_ok, import_ok, item_url, item_file, import_events,
    remove_event. cbv beta iota zeta.
  destruct (fetch_error env url (filename temp_dir city i)).
  - intros [= <- <-]. cbn [andb]. split; [lia | reflexivity].
  - destruct (remove_error env (filename temp_dir city i)); [discriminate|].
    destruct (run_command env (addmedia simulator_id (filename temp_dir city i)));
      intros [= <- <-]; cbn [andb]; split; (lia || reflexivity).
Qed.

Lemma for_urls_total (env : environment) (simulator_id city : string)
      (urls : list string) :
  forall (i total : nat) (t : list event) (total' : nat),
    for_urls env simulator_id temp_dir city i urls total = (t, Ret total') ->
    total' = total + length (filter (both_ok env simulator_id) (category_items city i urls)) /\
    total' = total + length (filter is_successful_import t).
Proof.
  induction urls as [|url rest IH]; intros i total t total'; cbn [for_urls].
  - intros [= <- <-]. cbn. lia.
  - intros H. apply bind_ret_inv in H as [t1 [mid [t2 [H1 [H2 ->]]]]].
    apply (item_run_total env simulator_id (city, i, url)) in H1 as [E1 E1'].
    apply IH in H2 as [E2 E2'].
    unfold category_items in *. cbn [enumerate map filter]. cbn [fst snd].
    rewrite filter_app, length_app.
    destruct (both_ok env simulator_id (city, i, url)); cbn [length]; lia.
Qed.

Lemma for_cities_total (env : environment) (simulator_id : string)
      (images : list (string * list string)) :
  forall (total : nat) (t : list event) (total' : nat),
    for_cities env simulator_id temp_dir images total = (t, Ret total') ->
    total' = total + length (filter (both_ok env simulator_id) (items_of images)) /\
    total' = total + length (filter is_successful_import t).
Proof.
  induction images as [|[city urls] rest IH]; intros total t total'; cbn [for_cities].
  - intros [= <- <-]. cbn. lia.
  - intros H. apply bind_ret_inv in H as [t0 [[] [t' [H0 [H ->]]]]].
    injection H0 as <-.
    apply bind_ret_inv in H as [t1 [mid [t'' [H1 [H ->]]]]].
    apply bind_ret_inv in H as [t2 [[] [t3 [H2 [H3 ->]]]]].
    injection H2 as <-.
    apply for_urls_total in H1 as [E1 E1']. apply IH in H3 as [E3 E3'].
    rewrite items_of_cons, !filter_app, !length_app. cbn [filter is_successful_import length].
    lia.
Qed.




Lemma get_simulator_id_some (env : environment) (id : string) :
  snd (get_simulator_id env) = Ret (Some id) ->
  get_simulator_id env = ([Run list_devices true], Ret (Some id)) /\ id <> "".
Proof.
  rewrite get_simulator_id_unfold.
  destruct (run_command env list_devices) as [out | text]; cbn [snd];
    [|discriminate].
  intros [= H]. rewrite H. split; [reflexivity|].
  apply scan_lines_located in H.
  destruct H as [_ [line [_ [_ [_ [[pre [[post [_ [Hne _]]] _]] _]]]]]].
  exact Hne.
Qed.

Lemma get_simulator_id_none (env : environment) :
  snd (get_simulator_id env) = Ret None ->
  exists b, get_simulator_id env = ([Run list_devices b], Ret None).
Proof.
  rewrite get_simulator_id_unfold.
  destruct (run_command env list_devices) as [out | text]; cbn [snd].
  - intros [= ->]. now exists true.
  - intros _. now exists false.
Qed.

(** [main] without a booted simulator. *)
Lemma main_no_device (env : environment) :
  snd (get_simulator_id env) = Ret None ->
  exists b, main env = (fatal_events b, Raise (SystemExit 1)).
Proof.
  intros H. destruct (get_simulator_id_none env H) as [b E].
  exists b. unfold main. rewrite E. reflexivity.
Qed.

(** [main] with a booted simulator: the loops, then the end of the run
    unless the loops raised. *)
Lemma main_device (env : environment) (id : string) :
  snd (get_simulator_id env) = Ret (Some id) ->
  main env
  = match for_cities env id temp_dir IMAGES 0 with
    | (t, Ret total) => ((preamble id ++ t ++ epilogue env total)%list, Ret tt)
    | (t, Raise e) => ((preamble id ++ t)%list, Raise e)
    end.
Proof.
  intros H. destruct (get_simulator_id_some env id H) as [E Hne].
  unfold main. rewrite E.
  destruct id as [|c id]; [now destruct Hne|].
  cbn [bind print emit ret os_makedirs truthy negb format_value app].
  destruct (for_cities env (String c id) temp_dir IMAGES 0) as [t [total|e]];
    [|reflexivity].
  unfold os_rmdir, epilogue.
  destruct (rmdir_error env temp_dir); reflexivity.
Qed.

Lemma get_simulator_id_returns (env : environment) :
  exists v, snd (get_simulator_id env) = Ret v.
Proof.
  rewrite get_simulator_id_unfold.
  destruct (run_command env list_devices); now eexists.
Qed.

Lemma distinct_NoDup (l : list string) : distinct l = true -> NoDup l.
Proof.
  induction l as [|x l IH]; cbn [distinct]; [constructor|].
  intros H. apply andb_true_iff in H as [Hx Hl]. constructor; [|now apply IH].
  intros Hin. apply negb_true_iff in Hx.
  assert (Hex : existsb (String.eqb x) l = true).
  { apply existsb_exists. exists x. split; [exact Hin | apply String.eqb_refl]. }
  congruence.
Qed.

Lemma NoDup_map_eq {A B : Type} (f : A -> B) (l : list A) (x y : A) :
  NoDup (map f l) -> In x l -> In y l -> f x = f y -> x = y.
Proof.
  induction l as [|a l IH]; cbn [map]; [intros _ []|].
  intros Hnd Hx Hy E. apply NoDup_cons_iff in Hnd as [Hnot Hnd].
  destruct Hx as [<- | Hx], Hy as [<- | Hy].
  - reflexivity.
  - destruct Hnot. rewrite E. now apply in_map.
  - destruct Hnot. rewrite <- E. now apply in_map.
  - now apply IH.
Qed.

(** The temporary files of the catalog items are pairwise different. *)
Lemma catalog_files_NoDup : NoDup (map item_file catalog_items).
Proof. apply distinct_NoDup. vm_compute. reflexivity. Qed.

Lemma catalog_file_eq (it1 it2 : item) :
  In it1 catalog_items -> In it2 catalog_items ->
  item_file it1 = item_file it2 -> it1 = it2.
Proof. apply NoDup_map_eq, catalog_files_NoDup. Qed.

(** An import or a removal among the events of a turn is that of the
    item's own file, and the download of the item succeeded. *)
Lemma item_run_file_events (env : environment) (simulator_id : string)
      (it : item) (total : nat) (file : string) (ev : event) :
  In ev (fst (item_run env simulator_id it total)) ->
  is_import_of file ev || is_removal_of file ev = true ->
  item_file it = file /\ download_ok env it = true.
Proof.
  destruct it as [[city i] url]. unfold item_run. rewrite process_item_unfold.
  unfold download_ok, item_url, item_file, import_events, remove_event.
  cbv beta iota zeta.
  destruct (fetch_error env url (filename temp_dir city i)); cbn [fst].
  - intros [<- | [<- | [<- | []]]]; discriminate.
  - destruct (run_command env (addmedia simulator_id (filename temp_dir city i)));
      cbn [app];
      intros [<- | [<- | [<- | [<- | [<- | [<- | []]]]]]];
      cbn [is_import_of is_removal_of addmedia orb]; try discriminate;
      rewrite ?orb_false_r; intros E; apply String.eqb_eq in E; now split.
Qed.

(** A successful download among the events of a turn is followed by the
    removal of the file it wrote. *)
Lemma item_run_download_removed (env : environment) (simulator_id : string)
      (it : item) (total : nat) (url path : string) :
  In (UrlRetrieve url path true) (fst (item_run env simulator_id it total)) ->
  exists ok, In (Remove path ok) (fst (item_run env simulator_id it total)).
Proof.
  destruct it as [[city i] u]. unfold item_run. rewrite process_item_unfold.
  unfold import_events, remove_event. cbv beta iota zeta.
  destruct (fetch_error env u (filename temp_dir city i)); cbn [fst].
  - intros [E | [E | [E | []]]]; discriminate E.
  - intros H. eexists.
    apply in_or_app. right. apply in_or_app. right. left.
    assert (E : path = filename temp_dir city i); [|now rewrite E].
    destruct (run_command env (addmedia simulator_id (filename temp_dir city i)));
      cbn [app] in H;
      destruct H as [E | [E | [E | [E | [E | [E | []]]]]]];
      try discriminate E; now injection E.
Qed.

Lemma in_concat_chunk {A : Type} (x : A) (chunks : list (list A)) :
  In x (concat chunks) -> exists chunk, In chunk chunks /\ In x chunk.
Proof.
  intros H. apply in_concat in H as [chunk [H1 H2]]. now exists chunk.
Qed.

(** The events of a run, by where they come from. *)
Lemma main_events (env : environment) (ev : event) :
  In ev (fst (main env)) ->
  (exists b, In ev (fatal_events b)) \/
  exists id,
    snd (get_simulator_id env) = Ret (Some id) /\
    (In ev (preamble id) \/
     (exists total, In ev (epilogue env total)) \/
     exists chunk,
       loop_chunk env id catalog_items chunk /\ In ev chunk /\
       forall ev', In ev' chunk -> In ev' (fst (main env))).
Proof.
  destruct (get_simulator_id_returns env) as [[id|] Hid].
  - rewrite (main_device env id Hid). intros H. right. exists id.
    split; [exact Hid|].
    destruct (for_cities_chunks env id IMAGES 0) as [chunks [E Hall]].
    assert (Hloops : forall t, In ev t -> t = fst (for_cities env id temp_dir IMAGES 0) ->
              (forall ev', In ev' t -> In ev' (fst (main env))) ->
              exists chunk, loop_chunk env id catalog_items chunk /\ In ev chunk /\
                            forall ev', In ev' chunk -> In ev' (fst (main env))).
    { intros t Ht -> Hsub. rewrite E in Ht, Hsub.
      apply in_concat_chunk in Ht as [chunk [Hc Hev]].
      exists chunk. split; [|split; [exact Hev|]].
      - rewrite Forall_forall in Hall. now apply Hall.
      - intros ev' Hev'. apply Hsub. apply in_concat. now exists chunk. }
    rewrite (main_device env id Hid) in Hloops.
    destruct (for_cities env id temp_dir IMAGES 0) as [t [total|e]]; cbn [fst] in *.
    + apply in_app_or in H as [H | H]; [now left|].
      apply in_app_or in H as [H | H]; [|right; left; now exists total].
      right. right. apply (Hloops t H eq_refl).
      intros ev' Hev'. apply in_or_app. right. apply in_or_app. now left.
    + apply in_app_or in H as [H | H]; [now left|].
      right. right. apply (Hloops t H eq_refl).
      intros ev' Hev'. apply in_or_app. now right.
  - destruct (main_no_device env Hid) as [b E]. rewrite E. cbn [fst].
    intros H. left. now exists b.
Qed.

(** ** The Orchestrator *)

(** C4. When the Device Locator returns absence, the run consists of the
    greeting, the query of the device list and the two lines of the error
    message, the second of which tells the operator to start the simulator;
    the exit status is 1; there is no download, no import and no creation of
    the temporary directory among the events. *)
Theorem no_booted_device_aborts (env : environment)
        (H : snd (get_simulator_id env) = Ret None) :
  (exists b, fst (run env) = fatal_events b) /\
  snd (run env) = 1%Z /\
  In (Print "Please start the iOS Simulator first, then run this script again.")
     (fst (run env)) /\
  forall ev, In ev (fst (run env)) ->
             is_download ev = false /\ is_import ev = false /\ is_makedirs ev = false.
Proof.
  destruct (main_no_device env H) as [b E].
  unfold run. rewrite E. cbn [fst snd exit_status].
  split; [now exists b|]. split; [reflexivity|]. split.
  - unfold fatal_events. cbn [In]. tauto.
  - unfold fatal_events. intros ev [<- | [<- | [<- | [<- | []]]]]; now repeat split.
Qed.

Lemma no_booted_device_aborts_witness :
  snd (get_simulator_id Sample.lowercase_marker) = Ret None /\
  (exists b, fst (run Sample.lowercase_marker) = fatal_events b) /\
  snd (run Sample.lowercase_marker) = 1%Z /\
  In (Print "Please start the iOS Simulator first, then run this script again.")
     (fst (run Sample.lowercase_marker)) /\
  forall ev, In ev (fst (run Sample.lowercase_marker)) ->
             is_download ev = false /\ is_import ev = false /\ is_makedirs ev = false.
Proof.
  split; [reflexivity|].
  apply (no_booted_device_aborts Sample.lowercase_marker). reflexivity.
Defined.

(** C1. When [main] runs to its end, the last but one line it prints is the
    summary, and the count in it is the number of catalog items whose
    download and import both returned success, which is also the number of
    successful imports among the events of the run; the catalog has 30
    items (3 categories of 10) and the count is at most 30. *)
Theorem reported_total_counts_imported_items (env : environment)
        (H : snd (main env) = Ret tt) :
  exists id events total,
    snd (get_simulator_id env) = Ret (Some id) /\
    fst (main env) = (events ++ [Print (summary_line total); Print closing_line])%list /\
    total = length (filter (both_ok env id) catalog_items) /\
    total = length (filter is_successful_import (fst (main env))) /\
    total <= 30 /\
    length catalog_items = 30 /\
    map (fun entry => length (snd entry)) IMAGES = [10; 10; 10].
Proof.
  destruct (get_simulator_id_returns env) as [[id|] Hid].
  - exists id. rewrite (main_device env id Hid) in *.
    destruct (for_cities env id temp_dir IMAGES 0) as [t [total|e]] eqn:Hloops;
      cbn [fst snd] in *; [|discriminate].
    apply for_cities_total in Hloops as [E1 E2]. cbn [Nat.add] in E1, E2.
    exists (preamble id ++ t ++ [RmDir temp_dir
              (match rmdir_error env temp_dir with None => true | Some _ => false end)])%list,
           total.
    split; [exact Hid|]. split.
    { unfold epilogue. now rewrite <- !app_assoc. }
    split; [exact E1|]. split.
    { rewrite !filter_app, !length_app. cbn [preamble epilogue filter
        is_successful_import list_devices length]. lia. }
    split; [|split; reflexivity].
    rewrite E1. change 30 with (length catalog_items). apply filter_length_le.
  - destruct (main_no_device env Hid) as [b E]. rewrite E in H. discriminate.
Qed.

Lemma reported_total_counts_imported_items_witness :
  snd (main Sample.flaky) = Ret tt /\
  exists id events total,
    snd (get_simulator_id Sample.flaky) = Ret (Some id) /\
    fst (main Sample.flaky)
    = (events ++ [Print (summary_line total); Print closing_line])%list /\
    total = length (filter (both_ok Sample.flaky id) catalog_items) /\
    total = length (filter is_successful_import (fst (main Sample.flaky))) /\
    total <= 30 /\
    length catalog_items = 30 /\
    map (fun entry => length (snd entry)) IMAGES = [10; 10; 10].
Proof.
  split; [vm_compute; reflexivity|].
  apply (reported_total_counts_imported_items Sample.flaky).
  vm_compute. reflexivity.
Defined.

(** C2. When the download of an item fails, its turn of the loop consists
    of the announcement, the failed download and the diagnostic: no import
    and no removal; the loop then goes on with the next item and the same
    counter. For an item of the catalog, no event of the whole run is an
    import or a removal of its file. *)
Theorem failed_download_skips_import_and_cleanup
        (env : environment) (city : string) (i : nat) (url text : string)
        (H : fetch_error env url (filename temp_dir city i) = Some text) :
  (forall simulator_id rest total,
     for_urls env simulator_id temp_dir city i (url :: rest) total
     = let (t, o) := for_urls env simulator_id temp_dir city (S i) rest total in
       ((failed_download_events city i url text ++ t)%list, o)) /\
  (forall ev, In ev (failed_download_events city i url text) ->
              is_import ev = false /\
              is_removal_of (filename temp_dir city i) ev = false) /\
  (In (city, i, url) catalog_items ->
   forall ev, In ev (fst (run env)) ->
              is_import_of (filename temp_dir city i) ev = false /\
              is_removal_of (filename temp_dir city i) ev = false).
Proof.
  split; [|split].
  - intros simulator_id rest total. cbn [for_urls].
    rewrite process_item_unfold. cbv zeta. rewrite H. unfold bind.
    destruct (for_urls env simulator_id temp_dir city (S i) rest total).
    reflexivity.
  - intros ev [<- | [<- | [<- | []]]]; now split.
  - intros Hin ev Hev.
    assert (Hev' : In ev (fst (main env))).
    { unfold run in Hev. now destruct (main env). }
    assert (Hno : is_import_of (filename temp_dir city i) ev
                  || is_removal_of (filename temp_dir city i) ev = false);
      [|now apply orb_false_iff in Hno].
    apply not_true_is_false. intros Hfile.
    apply main_events in Hev' as [[b Hf] | [id [Hid [Hp | [[total He] | Hc]]]]].
    + destruct Hf as [<- | [<- | [<- | [<- | []]]]]; discriminate Hfile.
    + destruct Hp as [<- | [<- | [<- | [<- | [<- | []]]]]]; discriminate Hfile.
    + destruct He as [<- | [<- | [<- | []]]]; discriminate Hfile.
    + destruct Hc as [chunk [[[line ->] | [it [total [Hit ->]]]] [Hc _]]].
      * destruct Hc as [<- | []]. discriminate Hfile.
      * destruct (item_run_file_events _ _ _ _ _ _ Hc Hfile) as [Efile Hok].
        apply (catalog_file_eq it (city, i, url) Hit Hin) in Efile. subst it.
        unfold download_ok, item_url, item_file in Hok. now rewrite H in Hok.
Qed.

Lemma failed_download_skips_import_and_cleanup_witness :
  fetch_error Sample.flaky
    "https://images.unsplash.com/photo-1511739001486-6bfe10ce785f?w=800"
    (filename temp_dir "paris" 3) = Some "<urlopen error timed out>" /\
  In ("paris", 3, "https://images.unsplash.com/photo-1511739001486-6bfe10ce785f?w=800")
     catalog_items /\
  forall ev, In ev (fst (run Sample.flaky)) ->
             is_import_of (filename temp_dir "paris" 3) ev = false /\
             is_removal_of (filename temp_dir "paris" 3) ev = false.
Proof.
  split; [reflexivity|].
  assert (Hin : In ("paris", 3,
                    "https://images.unsplash.com/photo-1511739001486-6bfe10ce785f?w=800")
                   catalog_items).
  { do 12 right. now left. }
  split; [exact Hin|].
  apply (failed_download_skips_import_and_cleanup Sample.flaky "paris" 3
           "https://images.unsplash.com/photo-1511739001486-6bfe10ce785f?w=800"
           "<urlopen error timed out>" eq_refl).
  exact Hin.
Defined.

(** C3. When the download of an item succeeds, its turn of the loop ends
    with the removal of the temporary file, whatever the import returned.
    If the import fails and the removal is done, the loop goes on with the
    next item and the same counter. A turn that returns has removed the
    file and has added one to the counter only if the import succeeded. In
    the whole run every successful download is followed by a removal of the
    file it wrote. *)
Theorem downloaded_file_is_removed_whatever_the_import
        (env : environment) (city : string) (i : nat) (url : string)
        (H : fetch_error env url (filename temp_dir city i) = None) :
  (forall simulator_id total,
     fst (process_item env simulator_id temp_dir city i url total)
     = downloaded_events env simulator_id city i url /\
     exists before ok,
       downloaded_events env simulator_id city i url
       = (before ++ [Remove (filename temp_dir city i) ok])%list /\
       (forall ev, In ev before -> is_removal_of (filename temp_dir city i) ev = false) /\
       forall total',
         snd (process_item env simulator_id temp_dir city i url total) = Ret total' ->
         ok = true /\
         total' = if import_ok env simulator_id (city, i, url) then total + 1 else total) /\
  (forall simulator_id text rest total,
     run_command env (addmedia simulator_id (filename temp_dir city i)) = ExitNonzero text ->
     remove_error env (filename temp_dir city i) = None ->
     for_urls env simulator_id temp_dir city i (url :: rest) total
     = let (t, o) := for_urls env simulator_id temp_dir city (S i) rest total in
       (([ announce city i;
           UrlRetrieve url (filename temp_dir city i) true;
           Print "  ✅ Downloaded";
           Run (addmedia simulator_id (filename temp_dir city i)) false;
           Print ("  ❌ Failed to import: " ++ text);
           Remove (filename temp_dir city i) true ] ++ t)%list, o)) /\
  (forall u path, In (UrlRetrieve u path true) (fst (run env)) ->
                  exists ok, In (Remove path ok) (fst (run env))).
Proof.
  split; [|split].
  - intros simulator_id total. rewrite process_item_unfold. cbv zeta.
    rewrite H. cbn [fst snd]. split; [reflexivity|].
    unfold downloaded_events, remove_event, import_ok, item_file.
    eexists _, _. split; [now rewrite !app_assoc|]. split.
    + unfold import_events.
      destruct (run_command env (addmedia simulator_id (filename temp_dir city i)));
        intros ev [<- | [<- | [<- | [<- | [<- | []]]]]]; reflexivity.
    + intros total'. destruct (remove_error env (filename temp_dir city i));
        [discriminate|].
      destruct (run_command env (addmedia simulator_id (filename temp_dir city i)));
        intros [= <-]; now split.
  - intros simulator_id text rest total Himp Hrm. cbn [for_urls].
    rewrite process_item_unfold. cbv zeta.
    unfold import_events, remove_event. rewrite H, Himp, Hrm. unfold bind.
    destruct (for_urls env simulator_id temp_dir city (S i) rest total).
    reflexivity.
  - intros u path Hev.
    assert (Hrun : fst (run env) = fst (main env)).
    { unfold run. now destruct (main env). }
    rewrite Hrun in *.
    apply main_events in Hev as [[b Hf] | [id [Hid [Hp | [[total He] | Hc]]]]].
    + destruct Hf as [E | [E | [E | [E | []]]]]; discriminate E.
    + destruct Hp as [E | [E | [E | [E | [E | []]]]]]; discriminate E.
    + destruct He as [E | [E | [E | []]]]; discriminate E.
    + destruct Hc as [chunk [[[line ->] | [it [total [Hit ->]]]] [Hc Hsub]]].
      * destruct Hc as [E | []]. discriminate E.
      * apply item_run_download_removed in Hc as [ok Hok].
        exists ok. now apply Hsub.
Qed.

Lemma downloaded_file_is_removed_whatever_the_import_witness :
  fetch_error Sample.flaky
    "https://images.unsplash.com/photo-1560969184-10fe8719e047?w=800"
    (filename temp_dir "berlin" 1) = None /\
  import_ok Sample.flaky "ABCD-1234"
    ("berlin", 1, "https://images.unsplash.com/photo-1560969184-10fe8719e047?w=800")
  = false /\
  (forall u path, In (UrlRetrieve u path true) (fst (run Sample.flaky)) ->
                  exists ok, In (Remove path ok) (fst (run Sample.flaky))).
Proof.
  split; [reflexivity|]. split; [reflexivity|].
  apply (downloaded_file_is_removed_whatever_the_import Sample.flaky "berlin" 1
           "https://images.unsplash.com/photo-1560969184-10fe8719e047?w=800" eq_refl).
Defined.

(** ** Which failures are caught *)

(** [download_image] turns every failure of the transfer into a diagnostic
    and [False]. *)
Lemma download_image_catches (env : environment) (url path : string) :
  download_image env url path
  = match fetch_error env url path with
    | None => ([UrlRetrieve url path true], Ret true)
    | Some text =>
        ([UrlRetrieve url path false; Print ("  ❌ Failed to download: " ++ text)],
         Ret false)
    end.
Proof.
  unfold download_image, urlretrieve.
  destruct (fetch_error env url path); reflexivity.
Qed.

(** [import_to_simulator] turns a non-zero exit of the tool into a
    diagnostic and [False]. *)
Lemma import_to_simulator_catches (env : environment) (simulator_id path : string) :
  import_to_simulator env simulator_id path
  = match run_command env (addmedia simulator_id path) with
    | Exit0 _ => ([Run (addmedia simulator_id path) true], Ret true)
    | ExitNonzero text =>
        ([Run (addmedia simulator_id path) false;
          Print ("  ❌ Failed to import: " ++ text)],
         Ret false)
    end.
Proof.
  unfold import_to_simulator, subprocess_run. fold (addmedia simulator_id path).
  destruct (run_command env (addmedia simulator_id path)); reflexivity.
Qed.

(** The removal of the temporary directory never stops the run. *)
Lemma final_rmdir_is_best_effort (env : environment) :
  try_except (os_rmdir env temp_dir) (fun _ => true) (fun _ => ret tt)
  = ([RmDir temp_dir (match rmdir_error env temp_dir with None => true | Some _ => false end)],
     Ret tt).
Proof. unfold os_rmdir. destruct (rmdir_error env temp_dir); reflexivity. Qed.

(** The removal of a temporary file in the loop is not guarded: its error
    leaves the turn as an exception, without a diagnostic. *)
Lemma process_item_removal_error (env : environment) (simulator_id city : string)
      (i : nat) (url text : string) (total : nat) :
  fetch_error env url (filename temp_dir city i) = None ->
  remove_error env (filename temp_dir city i) = Some text ->
  process_item env simulator_id temp_dir city i url total
  = (downloaded_events env simulator_id city i url, Raise (OSError text)) /\
  exists before,
    downloaded_events env simulator_id city i url
    = (before ++ [Remove (filename temp_dir city i) false])%list.
Proof.
  intros Hd Hr. rewrite process_item_unfold. cbv zeta. rewrite Hd, Hr.
  split; [reflexivity|].
  unfold downloaded_events, remove_event. rewrite Hr.
  eexists. now rewrite !app_assoc.
Qed.





(** ** The catalog and the temporary files *)

(** C7. Two items that differ in category or index have different
    temporary files, whatever their URLs are; and the 30 files of the
    catalog items are pairwise different. *)
Theorem temporary_filenames_are_unique
        (city1 city2 : string) (i1 i2 : nat) (url1 url2 : string)
        (Hdiff : (city1, i1) <> (city2, i2)) :
  item_file (city1, i1, url1) <> item_file (city2, i2, url2) /\
  NoDup (map item_file catalog_items).
Proof.
  split; [|exact catalog_files_NoDup].
  unfold item_file. intros E. apply filename_inj in E as [-> ->]. now apply Hdiff.
Qed.

Lemma temporary_filenames_are_unique_witness :
  In ("berlin", 1, "https://images.unsplash.com/photo-1560969184-10fe8719e047?w=800")
     catalog_items /\
  In ("berlin", 9, "https://images.unsplash.com/photo-1560969184-10fe8719e047?w=800")
     catalog_items /\
  ("berlin", 1) <> ("berlin", 9) /\
  item_file ("berlin", 1, "https://images.unsplash.com/photo-1560969184-10fe8719e047?w=800")
  <> item_file ("berlin", 9, "https://images.unsplash.com/photo-1560969184-10fe8719e047?w=800") /\
  NoDup (map item_file catalog_items).
Proof.
  split; [do 20 right; now left|].
  split; [do 28 right; now left|].
  split; [discriminate|].
  apply (temporary_filenames_are_unique "berlin" "berlin" 1 9). discriminate.
Defined.

(** C9. The catalog repeats URLs: one URL stands at two places of the
    'berlin' list, and one URL of the 'berlin' list is in the 'copenhagen'
    list as well; the three category labels are pairwise different. *)
Theorem catalog_repeats_urls :
  exists berlin copenhagen,
    lookup "berlin" IMAGES = Some berlin /\
    lookup "copenhagen" IMAGES = Some copenhagen /\
    (exists i j url, i <> j /\ nth_error berlin i = Some url /\ nth_error berlin j = Some url) /\
    (exists url, In url berlin /\ In url copenhagen) /\
    map fst IMAGES = ["copenhagen"; "paris"; "berlin"] /\
    NoDup (map fst IMAGES).
Proof.
  eexists _, _. split; [reflexivity|]. split; [reflexivity|]. split; [|split].
  - exists 0, 8, "https://images.unsplash.com/photo-1560969184-10fe8719e047?w=800".
    split; [discriminate|]. split; reflexivity.
  - exists "https://images.unsplash.com/photo-1599946347371-68eb71b16afc?w=800".
    split; [do 2 right; now left | do 5 right; now left].
  - split; [reflexivity|]. apply distinct_NoDup. reflexivity.
Qed.

(** ** An unguarded removal *)

(** C6, at an environment in which the file of copenhagen 2 cannot be
    removed: the simulator is found, download and import of the item
    succeed, and the [OSError] of the removal leaves [process_item] and
    [main] as an exception; the last event of the run is the failed
    removal, no diagnostic follows it. *)
Theorem removal_error_is_not_caught :
  snd (get_simulator_id Sample.remove_fails) = Ret (Some "ABCD-1234") /\
  both_ok Sample.remove_fails "ABCD-1234"
    ("copenhagen", 2, "https://images.unsplash.com/photo-1564507592333-c60657eea523?w=800")
  = true /\
  snd (process_item Sample.remove_fails "ABCD-1234" temp_dir "copenhagen" 2
         "https://images.unsplash.com/photo-1564507592333-c60657eea523?w=800" 1)
  = Raise (OSError "[Errno 2] No such file or directory") /\
  snd (main Sample.remove_fails) = Raise (OSError "[Errno 2] No such file or directory") /\
  last (fst (main Sample.remove_fails)) (Print "")
  = Remove (filename temp_dir "copenhagen" 2) false.
Proof. repeat split; vm_compute; reflexivity. Qed.

(** C8, at the same environment: the run passes the device location and
    ends with exit status 1, before any attempt to remove the temporary
    directory and without the summary. *)
Theorem removal_error_exits_with_status_1 :
  snd (get_simulator_id Sample.remove_fails) = Ret (Some "ABCD-1234") /\
  snd (run Sample.remove_fails) = 1%Z /\
  existsb (fun ev => match ev with RmDir _ _ => true | _ => false end)
          (fst (run Sample.remove_fails)) = false /\
  existsb (fun ev => match ev with
                     | Print line => String.prefix (nl ++ "✨ Done!") line
                     | _ => false
                     end)
          (fst (run Sample.remove_fails)) = false.
Proof. repeat split; vm_compute; reflexivity. Qed.

(** ** Sample runs *)

Example split_lines :
  Str.split "010" ("a" ++ nl ++ "b" ++ nl) = ["a"; "b"; ""].
Proof. reflexivity. Qed.

Example title_city : Str.title "copenhagen" = "Copenhagen".
Proof. reflexivity. Qed.

Example search_booted_line :
  Re.search Re.uuid_pattern "    iPhone 15 (1A2B-3C) (Booted)"
  = Some {| Re.group1 := Some "1A2B-3C" |}.
Proof. reflexivity. Qed.

Example search_skips_lowercase :
  Re.search Re.uuid_pattern "    iPhone (se) (1a2b) (Booted)" = None.
Proof. reflexivity. Qed.

Example lowercase_marker_is_absence :
  get_simulator_id Sample.lowercase_marker = ([Run list_devices true], Ret None).
Proof. reflexivity. Qed.

Example failed_query_is_absence :
  get_simulator_id Sample.simctl_fails = ([Run list_devices false], Ret None).
Proof. reflexivity. Qed.

(** All fetches and imports succeed: "30/30", exit status 0, and the
    temporary directory is removed. *)
Example all_fine_run :
  snd (run Sample.all_fine) = 0%Z /\
  exists events,
    fst (run Sample.all_fine)
    = (events ++ [RmDir temp_dir true; Print (summary_line 30); Print closing_line])%list.
Proof.
  split; [vm_compute; reflexivity|].
  exists (firstn 191 (fst (run Sample.all_fine))). vm_compute. reflexivity.
Qed.

(** One failed download and two failed imports: 27 of 30, exit status 0,
    and the failure to remove the directory is not reported. *)
Example flaky_run :
  snd (run Sample.flaky) = 0%Z /\
  exists events,
    fst (run Sample.flaky)
    = (events ++ [RmDir temp_dir false; Print (summary_line 27); Print closing_line])%list.
Proof.
  split; [vm_compute; reflexivity|].
  exists (firstn (length (fst (run Sample.flaky)) - 3) (fst (run Sample.flaky))).
  vm_compute. reflexivity.
Qed.


(** ** Further properties: the lines of the device list *)

Lemma split_nonempty (s : string) : Str.split "010" s <> [].
Proof.
  destruct s as [|c s]; cbn [Str.split]; [discriminate|].
  destruct (c =? "010")%char; [discriminate|].
  destruct (Str.split "010" s); discriminate.
Qed.

(** X9. The lines that [get_simulator_id] scans are the pieces of the
    output between its newlines: joined by newlines they give the output
    back, and none of them holds a newline. *)
Theorem scanned_lines_are_the_output (out : string) :
  String.concat nl (Str.split "010" out) = out /\
  Forall (fun line => Str.all no_newline line = true) (Str.split "010" out).
Proof.
  induction out as [|c out [IHjoin IHall]]; cbn [Str.split].
  - split; [reflexivity | now repeat constructor].
  - destruct (Ascii.eqb_spec c "010") as [->|Hc].
    + split.
      * generalize (split_nonempty out).
        destruct (Str.split "010" out) as [|piece pieces] eqn:E; [now intros []|].
        intros _. cbn [String.concat]. cbn [String.concat] in IHjoin.
        now rewrite IHjoin.
      * now constructor.
    + generalize (split_nonempty out).
      destruct (Str.split "010" out) as [|piece pieces] eqn:E; [now intros []|].
      intros _. split.
      * cbn [String.concat] in *. destruct pieces as [|next pieces].
        -- now rewrite IHjoin.
        -- rewrite <- IHjoin. reflexivity.
      * inversion IHall as [|? ? Hpiece Hpieces]; subst. constructor; [|exact Hpieces].
        cbn [Str.all]. rewrite Hpiece. unfold no_newline.
        destruct (Ascii.eqb_spec c "010"); [contradiction | reflexivity].
Qed.

Lemma split_append (a b : string) :
  Str.split "010" (a ++ nl ++ b) = (Str.split "010" a ++ Str.split "010" b)%list.
Proof.
  induction a as [|c a IH]; [reflexivity|].
  change (String c a ++ nl ++ b) with (String c (a ++ nl ++ b)).
  cbn [Str.split]. rewrite IH.
  destruct (c =? "010")%char; [reflexivity|].
  generalize (split_nonempty a).
  destruct (Str.split "010" a) as [|piece pieces]; [now intros []|reflexivity].
Qed.

Lemma scan_lines_app (l1 l2 : list string) :
  scan_lines (l1 ++ l2)
  = match scan_lines l1 with
    | Some id => Some id
    | None => scan_lines l2
    end.
Proof.
  induction l1 as [|line l1 IH]; [reflexivity|]. cbn [app scan_lines].
  destruct (Str.contains "Booted" line); [|exact IH].
  destruct (Re.search Re.uuid_pattern line) as [m|] eqn:Hs; [|exact IH].
  destruct (search_group _ _ Hs) as [id ->]. reflexivity.
Qed.

(** X2. Once a part of the output that ends at a newline holds a line with
    the marker and a token, what the tool prints after it does not matter:
    the identifier of that part is returned. Of several booted simulators
    the one listed first is taken. *)
Theorem later_lines_do_not_change_the_identifier
        (env : environment) (out more id : string)
        (Hout : run_command env list_devices = Exit0 (out ++ nl ++ more))
        (Hid : located (Str.split "010" out) id) :
  snd (get_simulator_id env) = Ret (Some id).
Proof.
  rewrite get_simulator_id_unfold, Hout. cbn [snd].
  rewrite split_append, scan_lines_app.
  apply scan_lines_located in Hid. now rewrite Hid.
Qed.

Lemma later_lines_do_not_change_the_identifier_witness :
  run_command Sample2.two_booted list_devices
  = Exit0 (Sample2.first_lines ++ nl ++ Sample2.more_lines) /\
  located (Str.split "010" Sample2.first_lines) "ABCD-1234" /\
  snd (get_simulator_id Sample2.two_booted) = Ret (Some "ABCD-1234").
Proof.
  assert (Hid : located (Str.split "010" Sample2.first_lines) "ABCD-1234").
  { apply scan_lines_located. reflexivity. }
  split; [reflexivity|]. split; [exact Hid|].
  exact (later_lines_do_not_change_the_identifier
           Sample2.two_booted Sample2.first_lines Sample2.more_lines "ABCD-1234"
           eq_refl Hid).
Defined.

(** A parenthesis after a text without one is the first of the whole. *)
Lemma first_open_paren (name a x y : string) :
  Str.all not_open_paren name = true ->
  a ++ "(" ++ x = name ++ "(" ++ y -> String.length name <= String.length a.
Proof.
  revert a. induction name as [|c name IH]; intros a Hname E.
  - apply Nat.le_0_l.
  - cbn [Str.all] in Hname. apply andb_true_iff in Hname as [Hc Hname].
    destruct a as [|d a]; simpl in E.
    + injection E as <- _. discriminate Hc.
    + injection E as _ E. simpl. apply le_n_S. now apply IH.
Qed.

(** X1. The usual form of a line of the device list: a name without
    parenthesis, the identifier in parentheses, then the state. If such a
    line holds 'Booted' and no line before it does, its identifier is
    returned. *)
Theorem booted_line_of_the_usual_form_is_found
        (env : environment) (out : string) (before after : list string)
        (name id rest : string)
        (Hout : run_command env list_devices = Exit0 out)
        (Hlines : Str.split "010" out
                  = (before ++ (name ++ "(" ++ id ++ ")" ++ rest)%string :: after)%list)
        (Hbefore : forallb (fun l => negb (Str.contains "Booted" l)) before = true)
        (Hname : Str.all not_open_paren name = true)
        (Hid : id <> "" /\ Str.all Re.uuid_char id = true)
        (Hbooted : Str.contains "Booted" (name ++ "(" ++ id ++ ")" ++ rest) = true) :
  snd (get_simulator_id env) = Ret (Some id).
Proof.
  rewrite get_simulator_id_unfold, Hout. cbn [snd]. f_equal.
  apply scan_lines_located.
  exists before, (name ++ "(" ++ id ++ ")" ++ rest), after.
  split; [exact Hlines|]. split; [now apply contains_occurs|]. split.
  - exists name. split.
    + exists rest. split; [reflexivity|].
      split; [apply Hid | apply all_uuid_char, Hid].
    + intros pre' id' [post' [E _]]. symmetry in E.
      now apply first_open_paren in E.
  - intros l Hin Hocc. apply contains_occurs in Hocc.
    rewrite forallb_forall in Hbefore. apply Hbefore in Hin.
    now rewrite Hocc in Hin.
Qed.

Lemma booted_line_of_the_usual_form_is_found_witness :
  snd (get_simulator_id Sample2.two_booted) = Ret (Some "ABCD-1234").
Proof.
  apply (booted_line_of_the_usual_form_is_found
           Sample2.two_booted
           (Sample2.first_lines ++ nl ++ Sample2.more_lines)
           ["== Devices =="; "-- iOS 17.0 --"; "    iPhone 14 (AAAA-0000) (Shutdown)"]
           ["    iPhone 16 (FFFF-9999) (Booted)"; ""]
           "    iPhone 15 " "ABCD-1234" " (Booted)").
  - reflexivity.
  - reflexivity.
  - reflexivity.
  - reflexivity.
  - split; [discriminate | reflexivity].
  - reflexivity.
Defined.

(** ** Further properties: the events of the loops *)

Lemma item_run_events (env : environment) (simulator_id : string) (it : item)
      (total : nat) :
  fst (item_run env simulator_id it total) = item_events env simulator_id it.
Proof.
  destruct it as [[city i] url]. unfold item_run, item_events.
  rewrite process_item_unfold. cbv zeta.
  destruct (fetch_error env url (filename temp_dir city i)); reflexivity.
Qed.

Lemma category_items_length (city : string) (urls : list string) :
  forall i, length (category_items city i urls) = length urls.
Proof.
  unfold category_items.
  induction urls as [|url rest IH]; intros i; cbn [enumerate map length];
    [reflexivity | now rewrite IH].
Qed.

Lemma category_items_cons (city : string) (i : nat) (url : string) (rest : list string) :
  category_items city i (url :: rest) = (city, i, url) :: category_items city (S i) rest.
Proof. reflexivity. Qed.

(** The trace of the inner loop: the turns of the first [k] items; all of
    them when the loop returns. *)
Lemma for_urls_trace (env : environment) (simulator_id city : string)
      (urls : list string) :
  forall (i total : nat),
  exists k,
    k <= length urls /\
    fst (for_urls env simulator_id temp_dir city i urls total)
    = flat_map (item_events env simulator_id) (firstn k (category_items city i urls)) /\
    (forall total', snd (for_urls env simulator_id temp_dir city i urls total) = Ret total' ->
                    k = length urls).
Proof.
  induction urls as [|url rest IH]; intros i total; cbn [for_urls].
  - exists 0. repeat split; reflexivity.
  - generalize (item_run_events env simulator_id (city, i, url) total).
    unfold item_run at 1.
    destruct (process_item env simulator_id temp_dir city i url total)
      as [t1 [mid|e]]; cbn [fst]; intros ->; unfold bind.
    + destruct (IH (S i) mid) as [k [Hk [E Hret]]].
      destruct (for_urls env simulator_id temp_dir city (S i) rest mid) as [t2 o].
      cbn [fst snd] in *. exists (S k). split; [cbn [length]; lia|]. split.
      * rewrite category_items_cons. cbn [firstn flat_map]. now rewrite E.
      * intros total' Ho. cbn [length]. f_equal. now apply (Hret total').
    + exists 1. split; [cbn [length]; lia|]. split.
      * rewrite category_items_cons. cbn [firstn flat_map fst]. now rewrite app_nil_r.
      * discriminate.
Qed.

Lemma filter_flat_map {A B : Type} (sel : B -> bool) (f : A -> list B) (l : list A) :
  filter sel (flat_map f l) = flat_map (fun x => filter sel (f x)) l.
Proof.
  induction l as [|x l IH]; cbn [flat_map]; [reflexivity|].
  now rewrite filter_app, IH.
Qed.

(** What a selection of events that takes no line of progress sees of the
    outer loop: the selected events of the turns of the first [k] items. *)
Lemma for_cities_filter (env : environment) (simulator_id : string)
      (images : list (string * list string)) :
  forall (total : nat),
  exists k,
    k <= length (items_of images) /\
    (forall sel : event -> bool,
       (forall line, sel (Print line) = false) ->
       filter sel (fst (for_cities env simulator_id temp_dir images total))
       = flat_map (fun it => filter sel (item_events env simulator_id it))
                  (firstn k (items_of images))) /\
    (forall total', snd (for_cities env simulator_id temp_dir images total) = Ret total' ->
                    k = length (items_of images)).
Proof.
  induction images as [|[city urls] rest IH]; intros total; cbn [for_cities].
  - exists 0. repeat split; reflexivity.
  - rewrite items_of_cons, length_app, category_items_length.
    destruct (for_urls_trace env simulator_id city urls 1 total) as [k1 [Hk1 [E1 Hret1]]].
    unfold print, emit. unfold bind at 1.
    destruct (for_urls env simulator_id temp_dir city 1 urls total) as [t1 [mid|e]];
      cbn [fst snd] in *; unfold bind; cbn [app].
    + destruct (IH mid) as [k2 [Hk2 [E2 Hret2]]].
      destruct (for_cities env simulator_id temp_dir rest mid) as [t2 o].
      cbn [fst snd] in *.
      exists (length urls + k2). split; [lia|]. split.
      * intros sel Hsel.
        rewrite <- (category_items_length city urls 1) at 1.
        rewrite firstn_app_2, flat_map_app.
        cbn [filter]. rewrite Hsel, filter_app. cbn [filter].
        rewrite Hsel, (E2 sel Hsel).
        f_equal. rewrite E1, (Hret1 mid eq_refl), filter_flat_map.
        now rewrite <- (category_items_length city urls 1), firstn_all.
      * intros total' Ho. f_equal. now apply (Hret2 total').
    + exists k1. split; [lia|]. split.
      * intros sel Hsel.
        cbn [fst filter]. rewrite Hsel, E1, filter_flat_map.
        rewrite firstn_app.
        replace (k1 - length (category_items city 1 urls)) with 0
          by (rewrite category_items_length; lia).
        cbn [firstn]. now rewrite app_nil_r.
      * discriminate.
Qed.

(** The same for a whole run, for a selection that takes nothing of what
    [main] does around the loops. *)
Lemma main_filter (env : environment) :
  exists k,
    k <= 30 /\
    (forall (sel : event -> bool) (id : string),
       (forall line, sel (Print line) = false) ->
       (forall b, sel (Run list_devices b) = false) ->
       (forall path, sel (MakeDirs path) = false) ->
       (forall path b, sel (RmDir path b) = false) ->
       snd (get_simulator_id env) = Ret (Some id) ->
       filter sel (fst (main env))
       = flat_map (fun it => filter sel (item_events env id it))
                  (firstn k catalog_items)) /\
    (snd (get_simulator_id env) = Ret None -> k = 0) /\
    (snd (main env) = Ret tt -> k = 30).
Proof.
  destruct (get_simulator_id_returns env) as [[id|] Hid].
  - destruct (for_cities_filter env id IMAGES 0) as [k [Hk [E Hret]]].
    exists k. split; [exact Hk|].
    rewrite (main_device env id Hid).
    destruct (for_cities env id temp_dir IMAGES 0) as [t [total|e]];
      cbn [fst snd] in *.
    + split; [|split].
      * intros sel id' Hprint Hrun Hmk Hrm Hid'.
        rewrite Hid in Hid'. injection Hid' as <-.
        rewrite !filter_app. unfold preamble, epilogue. cbn [filter].
        rewrite !Hprint, Hrun, Hmk, Hrm. cbn [app]. rewrite app_nil_r.
        now apply E.
      * rewrite Hid. discriminate.
      * intros _. now apply (Hret total).
    + split; [|split].
      * intros sel id' Hprint Hrun Hmk Hrm Hid'.
        rewrite Hid in Hid'. injection Hid' as <-.
        rewrite !filter_app. unfold preamble. cbn [filter].
        rewrite !Hprint, Hrun, Hmk. now apply E.
      * rewrite Hid. discriminate.
      * discriminate.
  - exists 0. split; [lia|].
    destruct (main_no_device env Hid) as [b E]. rewrite E. cbn [fst snd].
    split; [|split].
    + intros sel id _ _ _ _ Hid'. rewrite Hid in Hid'. discriminate.
    + reflexivity.
    + discriminate.
Qed.

Lemma flat_map_optional {A B : Type} (p : A -> bool) (f : A -> B) (l : list A) :
  flat_map (fun x => if p x then [f x] else []) l = map f (filter p l).
Proof.
  induction l as [|x l IH]; cbn [flat_map filter]; [reflexivity|].
  rewrite IH. now destruct (p x).
Qed.

Lemma flat_map_single {A B : Type} (f : A -> B) (l : list A) :
  flat_map (fun x => [f x]) l = map f l.
Proof.
  induction l as [|x l IH]; cbn [flat_map map]; [reflexivity | now rewrite IH].
Qed.

Lemma item_events_downloads (env : environment) (simulator_id : string) (it : item) :
  filter is_download (item_events env simulator_id it) = [download_event env it].
Proof.
  destruct it as [[city i] url].
  unfold item_events, download_event, download_ok, item_url, item_file,
    failed_download_events, downloaded_events, import_events, remove_event.
  destruct (fetch_error env url (filename temp_dir city i)); [reflexivity|].
  destruct (run_command env (addmedia simulator_id (filename temp_dir city i)));
    reflexivity.
Qed.

Lemma item_events_imports (env : environment) (simulator_id : string) (it : item) :
  filter is_import (item_events env simulator_id it)
  = if download_ok env it then [import_event env simulator_id it] else [].
Proof.
  destruct it as [[city i] url].
  unfold item_events, import_event, import_ok, download_ok, item_url, item_file,
    failed_download_events, downloaded_events, import_events, remove_event.
  destruct (fetch_error env url (filename temp_dir city i)); [reflexivity|].
  destruct (run_command env (addmedia simulator_id (filename temp_dir city i)));
    reflexivity.
Qed.

Lemma run_events (env : environment) : fst (run env) = fst (main env).
Proof. unfold run. now destruct (main env). Qed.

(** X4. The downloads of a run are those of the first [k] items of the
    catalog, in the order of the catalog and one for each item: nothing is
    fetched twice or out of turn. A run that reaches its end has tried all
    30, a run without a booted simulator none. *)
Theorem downloads_follow_the_catalog (env : environment) :
  exists k,
    k <= 30 /\
    filter is_download (fst (run env))
    = map (download_event env) (firstn k catalog_items) /\
    (snd (main env) = Ret tt -> k = 30) /\
    (snd (get_simulator_id env) = Ret None -> k = 0).
Proof.
  destruct (main_filter env) as [k [Hk [Hsome [Hnone Hend]]]].
  exists k. rewrite run_events.
  split; [exact Hk|]. split; [|split; [exact Hend | exact Hnone]].
  destruct (get_simulator_id_returns env) as [[id|] Hid].
  - rewrite (Hsome is_download id) by (reflexivity || exact Hid).
    rewrite <- flat_map_single.
    apply flat_map_ext. intros it. apply item_events_downloads.
  - rewrite (Hnone Hid). destruct (main_no_device env Hid) as [b ->]. reflexivity.
Qed.

(** X3. With the identifier [id] located, the imports of a run are those of
    the items among the first [k] of the catalog whose download succeeded
    ([k] being the number of downloads tried), in the order of the catalog
    and one for each; every one of them names [id] and the temporary file
    of its item. *)
Theorem imports_follow_the_downloads (env : environment) (id : string)
        (Hid : snd (get_simulator_id env) = Ret (Some id)) :
  exists k,
    k <= 30 /\
    filter is_download (fst (run env))
    = map (download_event env) (firstn k catalog_items) /\
    filter is_import (fst (run env))
    = map (import_event env id) (filter (download_ok env) (firstn k catalog_items)) /\
    (snd (main env) = Ret tt -> k = 30).
Proof.
  destruct (main_filter env) as [k [Hk [Hsome [_ Hend]]]].
  exists k. rewrite run_events.
  split; [exact Hk|]. split; [|split; [|exact Hend]].
  - rewrite (Hsome is_download id) by (reflexivity || exact Hid).
    rewrite <- flat_map_single.
    apply flat_map_ext. intros it. apply item_events_downloads.
  - rewrite (Hsome is_import id) by (reflexivity || exact Hid).
    rewrite <- flat_map_optional.
    apply flat_map_ext. intros it. apply item_events_imports.
Qed.

Lemma imports_follow_the_downloads_witness :
  snd (get_simulator_id Sample.flaky) = Ret (Some "ABCD-1234") /\
  exists k,
    k <= 30 /\
    filter is_download (fst (run Sample.flaky))
    = map (download_event Sample.flaky) (firstn k catalog_items) /\
    filter is_import (fst (run Sample.flaky))
    = map (import_event Sample.flaky "ABCD-1234")
          (filter (download_ok Sample.flaky) (firstn k catalog_items)) /\
    (snd (main Sample.flaky) = Ret tt -> k = 30).
Proof.
  split; [reflexivity|].
  apply (imports_follow_the_downloads Sample.flaky "ABCD-1234"). reflexivity.
Defined.

Example flaky_imports : length (filter is_import (fst (run Sample.flaky))) = 29.
Proof. vm_compute. reflexivity. Qed.

(** ** Further properties: the end of a run *)

Lemma for_urls_rmdir (env : environment) (answer : string -> option string)
      (simulator_id city : string) (urls : list string) :
  forall (i total : nat),
    for_urls (set_rmdir_error env answer) simulator_id temp_dir city i urls total
    = for_urls env simulator_id temp_dir city i urls total.
Proof.
  induction urls as [|url rest IH]; intros i total; cbn [for_urls]; [reflexivity|].
  change (process_item (set_rmdir_error env answer) simulator_id temp_dir city i url total)
    with (process_item env simulator_id temp_dir city i url total).
  destruct (process_item env simulator_id temp_dir city i url total) as [t [mid|e]];
    unfold bind; [now rewrite IH | reflexivity].
Qed.

Lemma for_cities_rmdir (env : environment) (answer : string -> option string)
      (simulator_id : string) (images : list (string * list string)) :
  forall (total : nat),
    for_cities (set_rmdir_error env answer) simulator_id temp_dir images total
    = for_cities env simulator_id temp_dir images total.
Proof.
  induction images as [|[city urls] rest IH]; intros total; cbn [for_cities];
    [reflexivity|].
  rewrite for_urls_rmdir. unfold print, emit. unfold bind at 1 3.
  destruct (for_urls env simulator_id temp_dir city 1 urls total) as [t [mid|e]];
    unfold bind; [now rewrite IH | reflexivity].
Qed.

(** X5. What [os.rmdir] answers at the end has no effect on a run beyond
    the removal itself: the exit status is the same, and so are all other
    events, among them every line that is printed. *)
Theorem rmdir_outcome_is_invisible (env : environment) (answer : string -> option string) :
  snd (run (set_rmdir_error env answer)) = snd (run env) /\
  filter (fun ev => negb (is_rmdir ev)) (fst (run (set_rmdir_error env answer)))
  = filter (fun ev => negb (is_rmdir ev)) (fst (run env)) /\
  filter is_print (fst (run (set_rmdir_error env answer)))
  = filter is_print (fst (run env)).
Proof.
  assert (Hget : get_simulator_id (set_rmdir_error env answer) = get_simulator_id env)
    by reflexivity.
  destruct (get_simulator_id_returns env) as [[id|] Hid].
  - assert (Hid' : snd (get_simulator_id (set_rmdir_error env answer)) = Ret (Some id))
      by now rewrite Hget.
    unfold run.
    rewrite (main_device env id Hid), (main_device _ id Hid'), for_cities_rmdir.
    destruct (for_cities env id temp_dir IMAGES 0) as [t [total|e]]; cbn [fst snd].
    + split; [reflexivity|]. rewrite !filter_app. split; reflexivity.
    + repeat split; reflexivity.
  - destruct (get_simulator_id_none env Hid) as [b E0].
    assert (E : main env = (fatal_events b, Raise (SystemExit 1))).
    { unfold main. rewrite E0. reflexivity. }
    assert (E' : main (set_rmdir_error env answer)
                 = (fatal_events b, Raise (SystemExit 1))).
    { unfold main. rewrite Hget, E0. reflexivity. }
    unfold run. rewrite E, E'. repeat split; reflexivity.
Qed.









Lemma item_events_no_makedirs (env : environment) (simulator_id : string) (it : item) :
  filter is_makedirs (item_events env simulator_id it) = [].
Proof.
  destruct it as [[city i] url].
  unfold item_events, failed_download_events, downloaded_events, import_events,
    remove_event.
  destruct (fetch_error env url (filename temp_dir city i)); [reflexivity|].
  destruct (run_command env (addmedia simulator_id (filename temp_dir city i)));
    reflexivity.
Qed.

(** X8. With a simulator located, the temporary directory is made once,
    after the device query and before anything is downloaded, imported or
    removed; nothing after that makes a directory again. *)
Theorem directory_is_made_once_before_the_loops
        (env : environment) (id : string)
        (Hid : snd (get_simulator_id env) = Ret (Some id)) :
  exists before after,
    fst (run env) = (before ++ MakeDirs temp_dir :: after)%list /\
    before = [ Print ("🚀 Starting to import test images to iOS Simulator..." ++ nl);
               Run list_devices true;
               Print ("✅ Found simulator: " ++ id ++ nl) ] /\
    filter is_makedirs after = [].
Proof.
  rewrite run_events, (main_device env id Hid).
  destruct (for_cities_filter env id IMAGES 0) as [k [_ [E _]]].
  assert (Hloops : filter is_makedirs (fst (for_cities env id temp_dir IMAGES 0)) = []).
  { rewrite (E is_makedirs (fun _ => eq_refl)). clear E.
    induction (firstn k (items_of IMAGES)) as [|it l IH]; [reflexivity|].
    cbn [flat_map]. now rewrite item_events_no_makedirs, IH. }
  destruct (for_cities env id temp_dir IMAGES 0) as [t [total|e]]; cbn [fst] in *.
  - exists (firstn 3 (preamble id)),
           (Print ("📁 Created temp directory: " ++ temp_dir ++ nl)
              :: t ++ epilogue env total)%list.
    split; [reflexivity|]. split; [reflexivity|].
    cbn [filter is_makedirs]. now rewrite filter_app, Hloops.
  - exists (firstn 3 (preamble id)),
           (Print ("📁 Created temp directory: " ++ temp_dir ++ nl) :: t).
    split; [reflexivity|]. split; [reflexivity|].
    cbn [filter is_makedirs]. exact Hloops.
Qed.

Lemma directory_is_made_once_before_the_loops_witness :
  snd (get_simulator_id Sample.flaky) = Ret (Some "ABCD-1234") /\
  exists before after,
    fst (run Sample.flaky) = (before ++ MakeDirs temp_dir :: after)%list /\
    before = [ Print ("🚀 Starting to import test images to iOS Simulator..." ++ nl);
               Run list_devices true;
               Print ("✅ Found simulator: " ++ "ABCD-1234" ++ nl) ] /\
    filter is_makedirs after = [].
Proof.
  split; [reflexivity|].
  apply (directory_is_made_once_before_the_loops Sample.flaky "ABCD-1234").
  reflexivity.
Defined.
